(** * gridfs-stream: the Grid handle of [lib/index.js]

    A shallow embedding of the [Grid] object (constructor, default
    collection, identifier resolution, [findOne], [find], [remove],
    [exist] and the HTTP cache support of [setCacheControl]), a model of
    the write and read sessions the specification describes, and the
    theorems that settle the specification's claims about them.

    JavaScript values are modelled as far as the code inspects them:
    strings with their truthiness (the empty string is falsy), objects
    used as dictionaries as [gmap string _], arguments that may be left
    out as [option].  Calls on collaborators (the HTTP response, the
    MongoDB driver) are modelled by what the code hands to them. *)

From Stdlib Require Import ZArith String Ascii List Lia.
From stdpp Require Import base option list gmap strings.

Local Open Scope string_scope.
Local Open Scope Z_scope.

(** ** JavaScript strings *)

Module JS.

(** [!!s] for a string: the empty string is the only falsy one. *)
Definition truthy_str (s : string) : bool :=
  match s with
  | EmptyString => false
  | String _ _ => true
  end.

(** A property read [o[k]] on an object whose values are strings: a
    missing property reads as [undefined] ([None]), which is falsy. *)
Definition truthy_prop (o : option string) : bool :=
  match o with
  | Some s => truthy_str s
  | None => false
  end.

(** [String.prototype.split(sep)] for a separator that is not empty: the
    string is cut at every occurrence of [sep], scanning from the left.
    [skip] counts the characters of a separator that is being stepped
    over, [cur] is the piece read so far. *)
Fixpoint split_go (sep : string) (skip : nat) (cur : string) (s : string)
  : list string :=
  match s with
  | EmptyString => [cur]
  | String c s' =>
      match skip with
      | S k => split_go sep k cur s'
      | O =>
          if String.prefix sep s
          then cur :: split_go sep (String.length sep - 1) EmptyString s'
          else split_go sep O (cur +:+ String c EmptyString) s'
      end
  end.

Definition split (sep s : string) : list string := split_go sep O EmptyString s.

(** [Array.prototype.indexOf(x)] on an array of strings: the index of the
    first element strictly equal to [x], or [-1]. *)
Fixpoint indexOf_from (i : Z) (x : string) (xs : list string) : Z :=
  match xs with
  | [] => -1
  | y :: ys => if String.eqb y x then i else indexOf_from (i + 1) x ys
  end.

Definition indexOf (xs : list string) (x : string) : Z := indexOf_from 0 x xs.

(** [String.prototype.includes(sub)]: [sub] occurs somewhere in [s]. *)
Fixpoint includes (s sub : string) : bool :=
  String.prefix sub s
  || match s with
     | EmptyString => false
     | String _ s' => includes s' sub
     end.

(** [String.prototype.slice(n)]: the string without its first [n]
    characters. *)
Fixpoint string_drop (n : nat) (s : string) : string :=
  match n, s with
  | O, _ => s
  | S k, String _ s' => string_drop k s'
  | S _, EmptyString => EmptyString
  end.

(** [Array.prototype.join(sep)]. *)
Fixpoint join (sep : string) (xs : list string) : string :=
  match xs with
  | [] => EmptyString
  | [x] => x
  | x :: ys => x +:+ sep +:+ join sep ys
  end.

End JS.

(** ** JavaScript dates

    [Date] as ECMAScript defines it: a time value in milliseconds since
    the epoch (UTC), or an invalid date.  [toUTCString] follows the
    abstract operations of the language standard (Day, YearFromTime,
    MonthFromTime, DateFromTime, WeekDay, HourFromTime, ...). *)

Module JSDate.

Inductive Date :=
| InvalidDate
| TimeValue (t : Z).

Definition msPerDay : Z := 86400000.
Definition msPerHour : Z := 3600000.
Definition msPerMinute : Z := 60000.
Definition msPerSecond : Z := 1000.

Definition Day (t : Z) : Z := t / msPerDay.

Definition DayFromYear (y : Z) : Z :=
  365 * (y - 1970) + (y - 1969) / 4 - (y - 1901) / 100 + (y - 1601) / 400.

Definition DaysInYear (y : Z) : Z :=
  if negb (y mod 4 =? 0) then 365
  else if negb (y mod 100 =? 0) then 366
  else if negb (y mod 400 =? 0) then 365
  else 366.

(** The largest [y] with [DayFromYear y <= d], searched upwards from a
    year that is not after it. *)
Fixpoint year_search (fuel : nat) (d y : Z) : Z :=
  match fuel with
  | O => y
  | S n => if DayFromYear (y + 1) <=? d then year_search n d (y + 1) else y
  end.

Definition year_lo (d : Z) : Z := 1970 + Z.min (d / 365) (d / 366).
Definition year_hi (d : Z) : Z := 1970 + Z.max (d / 365) (d / 366).

Definition YearFromDay (d : Z) : Z :=
  year_search (Z.to_nat (year_hi d - year_lo d + 1)) d (year_lo d).

Definition YearFromTime (t : Z) : Z := YearFromDay (Day t).

Definition InLeapYear (t : Z) : Z :=
  if DaysInYear (YearFromTime t) =? 366 then 1 else 0.

Definition DayWithinYear (t : Z) : Z := Day t - DayFromYear (YearFromTime t).

Definition MonthFromTime (t : Z) : Z :=
  let d := DayWithinYear t in
  let l := InLeapYear t in
  if d <? 31 then 0
  else if d <? 59 + l then 1
  else if d <? 90 + l then 2
  else if d <? 120 + l then 3
  else if d <? 151 + l then 4
  else if d <? 181 + l then 5
  else if d <? 212 + l then 6
  else if d <? 243 + l then 7
  else if d <? 273 + l then 8
  else if d <? 304 + l then 9
  else if d <? 334 + l then 10
  else 11.

Definition DateFromTime (t : Z) : Z :=
  let d := DayWithinYear t in
  let l := InLeapYear t in
  match MonthFromTime t with
  | 0 => d + 1
  | 1 => d - 30
  | 2 => d - 58 - l
  | 3 => d - 89 - l
  | 4 => d - 119 - l
  | 5 => d - 150 - l
  | 6 => d - 180 - l
  | 7 => d - 211 - l
  | 8 => d - 242 - l
  | 9 => d - 272 - l
  | 10 => d - 303 - l
  | _ => d - 333 - l
  end.

Definition WeekDay (t : Z) : Z := (Day t + 4) mod 7.
Definition HourFromTime (t : Z) : Z := (t / msPerHour) mod 24.
Definition MinFromTime (t : Z) : Z := (t / msPerMinute) mod 60.
Definition SecFromTime (t : Z) : Z := (t / msPerSecond) mod 60.

Definition day_names : list string :=
  ["Sun"; "Mon"; "Tue"; "Wed"; "Thu"; "Fri"; "Sat"].

Definition month_names : list string :=
  ["Jan"; "Feb"; "Mar"; "Apr"; "May"; "Jun";
   "Jul"; "Aug"; "Sep"; "Oct"; "Nov"; "Dec"].

Definition name_at (names : list string) (i : Z) : string :=
  nth (Z.to_nat i) names EmptyString.

(** The decimal digit [n mod 10] as a character. *)
Definition digit (n : Z) : ascii := ascii_of_nat (48 + Z.to_nat (n mod 10)).

(** The decimal digits of [n >= 0], most significant first, before [acc]. *)
Fixpoint digits_go (fuel : nat) (n : Z) (acc : string) : string :=
  match fuel with
  | O => acc
  | S k =>
      let acc' := String (digit n) acc in
      if n <? 10 then acc' else digits_go k (n / 10) acc'
  end.

Definition decimal (n : Z) : string := digits_go (S (Z.to_nat n)) n EmptyString.

Fixpoint zeros (k : nat) : string :=
  match k with
  | O => EmptyString
  | S k' => String "0" (zeros k')
  end.

(** ToZeroPaddedDecimalString: the decimal digits of [n], padded on the
    left with zeros to [minLength] characters at least. *)
Definition ToZeroPaddedDecimalString (n : Z) (minLength : nat) : string :=
  let S := decimal n in
  zeros (minLength - String.length S) +:+ S.

Definition TimeString (t : Z) : string :=
  ToZeroPaddedDecimalString (HourFromTime t) 2 +:+ ":" +:+
  ToZeroPaddedDecimalString (MinFromTime t) 2 +:+ ":" +:+
  ToZeroPaddedDecimalString (SecFromTime t) 2 +:+ " GMT".

(** [Date.prototype.toUTCString]. *)
Definition toUTCString (d : Date) : string :=
  match d with
  | InvalidDate => "Invalid Date"
  | TimeValue t =>
      let yv := YearFromTime t in
      name_at day_names (WeekDay t) +:+ ", "
      +:+ ToZeroPaddedDecimalString (DateFromTime t) 2 +:+ " "
      +:+ name_at month_names (MonthFromTime t) +:+ " "
      +:+ (if 0 <=? yv then "" else "-")
      +:+ ToZeroPaddedDecimalString (Z.abs yv) 4 +:+ " "
      +:+ TimeString t
  end.

(** [new Date(d)] for a [Date] argument copies its time value. *)
Definition new_Date (d : Date) : Date := d.

(** The IMF-fixdate of HTTP (RFC 7231, 7.1.1.1):
    day-name "," SP 2DIGIT SP month SP 4DIGIT SP 2DIGIT ":" 2DIGIT ":"
    2DIGIT SP "GMT". *)
Definition is_digit (c : ascii) : bool :=
  let n := nat_of_ascii c in ((48 <=? n) && (n <=? 57))%nat.

Definition is_name (names : list string) (a b c : ascii) : bool :=
  existsb (String.eqb (String a (String b (String c EmptyString)))) names.

Definition IMF_fixdate (s : string) : bool :=
  match list_ascii_of_string s with
  | [w1; w2; w3; c1; c2; d1; d2; c3; m1; m2; m3; c4; y1; y2; y3; y4; c5;
     h1; h2; c6; n1; n2; c7; s1; s2; c8; g1; g2; g3] =>
      is_name ["Mon"; "Tue"; "Wed"; "Thu"; "Fri"; "Sat"; "Sun"] w1 w2 w3
      && Ascii.eqb c1 "," && Ascii.eqb c2 " "
      && is_digit d1 && is_digit d2 && Ascii.eqb c3 " "
      && is_name ["Jan"; "Feb"; "Mar"; "Apr"; "May"; "Jun";
                  "Jul"; "Aug"; "Sep"; "Oct"; "Nov"; "Dec"] m1 m2 m3
      && Ascii.eqb c4 " "
      && is_digit y1 && is_digit y2 && is_digit y3 && is_digit y4
      && Ascii.eqb c5 " "
      && is_digit h1 && is_digit h2 && Ascii.eqb c6 ":"
      && is_digit n1 && is_digit n2 && Ascii.eqb c7 ":"
      && is_digit s1 && is_digit s2 && Ascii.eqb c8 " "
      && Ascii.eqb g1 "G" && Ascii.eqb g2 "M" && Ascii.eqb g3 "T"
  | _ => false
  end.

(** The time values of the years 0000 to 9999. *)
Definition min_http_time : Z := -62167219200000.
Definition max_http_time : Z := 253402300799999.

(** Reading an IMF-fixdate as RFC 7231 means it: the fields are the day
    of the month, the month and the year of the Gregorian calendar and
    the time of the day in UTC, and the day name is that of the date.
    [HTTP_date_seconds s] is the second the text names, counted from
    1970-01-01T00:00:00Z; [None] when the text is no IMF-fixdate or its
    day name is not the one of its date. *)
Definition digit_value (c : ascii) : Z := Z.of_nat (nat_of_ascii c) - 48.

Definition two_digits (a b : ascii) : Z := 10 * digit_value a + digit_value b.

Definition four_digits (a b c d : ascii) : Z :=
  1000 * digit_value a + 100 * digit_value b + 10 * digit_value c + digit_value d.

(** The position of [x] in [names], their number when it is not there. *)
Fixpoint position (x : string) (names : list string) : Z :=
  match names with
  | [] => 0
  | n :: names' => if String.eqb x n then 0 else 1 + position x names'
  end.

(** The days of the year before the first of month [mo] (0 for
    January), in a common year ([leap] 0) or a leap year ([leap] 1). *)
Definition days_before_month (mo leap : Z) : Z :=
  match mo with
  | 0 => 0
  | 1 => 31
  | 2 => 59 + leap
  | 3 => 90 + leap
  | 4 => 120 + leap
  | 5 => 151 + leap
  | 6 => 181 + leap
  | 7 => 212 + leap
  | 8 => 243 + leap
  | 9 => 273 + leap
  | 10 => 304 + leap
  | _ => 334 + leap
  end.

(** The days from 1970-01-01 to the given day of the calendar. *)
Definition days_from_epoch (year mo day : Z) : Z :=
  DayFromYear year
  + days_before_month mo (if DaysInYear year =? 366 then 1 else 0)
  + (day - 1).

Definition HTTP_date_seconds (s : string) : option Z :=
  if IMF_fixdate s then
    match list_ascii_of_string s with
    | [w1; w2; w3; _; _; d1; d2; _; m1; m2; m3; _; y1; y2; y3; y4; _;
       h1; h2; _; n1; n2; _; s1; s2; _; _; _; _] =>
        let days :=
          days_from_epoch (four_digits y1 y2 y3 y4)
            (position (String m1 (String m2 (String m3 EmptyString))) month_names)
            (two_digits d1 d2) in
        if String.eqb (String w1 (String w2 (String w3 EmptyString)))
             (name_at day_names ((days + 4) mod 7))
        then Some (days * 86400 + two_digits h1 h2 * 3600
                   + two_digits n1 n2 * 60 + two_digits s1 s2)
        else None
    | _ => None
    end
  else None.

End JSDate.

(** ** Values, documents and the driver

    The values the code meets in option bags and file documents.  A
    property that is not set reads as [undefined], modelled by [None]. *)

Inductive ObjectID :=
| Oid (hex : string).

Inductive value :=
| VNull
| VBool (b : bool)
| VNum (n : Z)
| VStr (s : string)
| VDate (d : JSDate.Date)
| VOid (o : ObjectID).

#[global] Instance Date_eq_dec : EqDecision JSDate.Date.
Proof. solve_decision. Defined.
#[global] Instance ObjectID_eq_dec : EqDecision ObjectID.
Proof. solve_decision. Defined.
#[global] Instance value_eq_dec : EqDecision value.
Proof. solve_decision. Defined.

(** JavaScript truthiness. *)
Definition truthy (v : value) : bool :=
  match v with
  | VNull => false
  | VBool b => b
  | VNum n => negb (n =? 0)
  | VStr s => JS.truthy_str s
  | VDate _ => true
  | VOid _ => true
  end.

Definition truthy_opt (o : option value) : bool :=
  match o with
  | Some v => truthy v
  | None => false
  end.

(** A JavaScript object used as a dictionary. *)
Abbreviation object := (gmap string value).

(** What a call completes with: a returned value or a thrown error. *)
Inductive completion (A : Type) :=
| Return (a : A)
| Throw (msg : string).
Arguments Return {A} a.
Arguments Throw {A} msg.

(** The arguments a node-style callback is invoked with. *)
Inductive callback_args (A : Type) :=
| CallErr (err : string)
| CallOk (a : A).
Arguments CallErr {A} err.
Arguments CallOk {A} a.

(** A collection handle, as [db.collection(name)] gives it. *)
Inductive Collection :=
| Coll (name : string).

#[global] Instance Collection_eq_dec : EqDecision Collection.
Proof. solve_decision. Defined.

(** What the driver's [collection.find(query, cb)] calls back with. *)
Inductive find_reply :=
| FindErr (err : string)
| FindNoCursor
| FindCursor (docs : list object).

(** An open database: the part of [mongo.Db] the code uses. *)
Record Db := {
  db_find : Collection -> object -> find_reply
}.

Record GridStoreT := {
  DEFAULT_ROOT_COLLECTION : string
}.

(** The native driver handed to the constructor.  [ObjectID_new v] is
    [new mongo.ObjectID(v)], [None] when the constructor throws;
    [Collection_new name] is the call [mongo.Collection(db, name, null,
    null)], made without [new]: depending on the driver it returns a
    collection, returns nothing ([Return None]), or throws. *)
Record Mongo := {
  GridStore : option GridStoreT;
  ObjectID_new : value -> option ObjectID;
  Collection_new : string -> completion (option Collection)
}.

(** The option bag of [remove], [exist], [findOne] and [find]: [root],
    the name of a root collection, and [fields], its other properties. *)
Record Options := {
  root : option string;
  fields : object
}.

(** A call handed to [mongo.GridStore]. *)
Inductive driver_call :=
| Unlink (key : option value) (options : Options)
| Exist (key : option value) (root : option string).

(** ** The Grid handle *)

Record Grid := {
  db : Db;
  mongo : Mongo;
  curCol : string;
  _col : option Collection
}.

Definition set_col (g : Grid) (name : string) (c : Collection) : Grid :=
  {| db := db g; mongo := mongo g; curCol := name; _col := Some c |}.

(** [function Grid (db, mongo)]; [Grid_mongo] is the static [Grid.mongo]. *)
Definition Grid_new (Grid_mongo : option Mongo) (d : option Db) (m : option Mongo)
  : completion Grid :=
  let m := match m with Some _ => m | None => Grid_mongo end in
  match m with
  | None => Throw "missing mongo argument
new Grid(db, mongo)"
  | Some mg =>
      match d with
      | None => Throw "missing db argument
new Grid(db, mongo)"
      | Some dbh =>
          Return {| db := dbh; mongo := mg;
                    curCol := match GridStore mg with
                              | Some gs => DEFAULT_ROOT_COLLECTION gs
                              | None => "fs"
                              end;
                    _col := None |}
      end
  end.

(** [Grid.prototype.collection(name)]. *)
Definition collection (name : option string) (g : Grid) : completion Collection * Grid :=
  let chosen :=
    if JS.truthy_prop name then Return (default "" name)
    else if JS.truthy_str (curCol g) then Return (curCol g)
    else match GridStore (mongo g) with
         | Some gs => Return (DEFAULT_ROOT_COLLECTION gs)
         | None => Throw "TypeError: Cannot read property 'DEFAULT_ROOT_COLLECTION' of undefined"
         end in
  match chosen with
  | Throw e => (Throw e, g)
  | Return n =>
      let c := Coll (n +:+ ".files") in
      (Return c, set_col g n c)
  end.

(** The getter [files]. *)
Definition files (g : Grid) : completion Collection * Grid :=
  match _col g with
  | Some c => (Return c, g)
  | None => collection None g
  end.

(** [Grid.prototype.tryParseObjectId(string)]: the parsed id, or [false]. *)
Definition tryParseObjectId (g : Grid) (v : value) : value :=
  match ObjectID_new (mongo g) v with
  | Some o => VOid o
  | None => VBool false
  end.

(** [a || b] on values. *)
Definition or_else (a b : value) : value := if truthy a then a else b.

(** [Grid.prototype.remove(options, callback)]: the call it hands to
    [mongo.GridStore.unlink]. *)
Definition remove (g : Grid) (options : Options) : completion driver_call :=
  let _id :=
    match fields options !! "_id" with
    | Some v => if truthy v then Some (or_else (tryParseObjectId g v) v) else None
    | None => None
    end in
  let _id := if negb (truthy_opt _id) then fields options !! "filename" else _id in
  match GridStore (mongo g) with
  | Some _ => Return (Unlink _id options)
  | None => Throw "TypeError: Cannot read property 'unlink' of undefined"
  end.

(** [Grid.prototype.exist(options, callback)]: the call it hands to
    [mongo.GridStore.exist]. *)
Definition exist (g : Grid) (options : Options) : completion driver_call :=
  let _id :=
    match fields options !! "_id" with
    | Some v => if truthy v then Some (or_else (tryParseObjectId g v) v) else None
    | None => None
    end in
  let _id := if negb (truthy_opt _id) then fields options !! "filename" else _id in
  match GridStore (mongo g) with
  | Some _ => Return (Exist _id (root options))
  | None => Throw "TypeError: Cannot read property 'exist' of undefined"
  end.

(** The query [findOne] and [find] build: every property but [root],
    with [_id] parsed when it can be. *)
Definition build_query (g : Grid) (options : Options) : object :=
  let find := fields options in
  match find !! "_id" with
  | Some v => if truthy v then <["_id" := or_else (tryParseObjectId g v) v]> find else find
  | None => find
  end.

(** The collection [findOne] and [find] query. *)
Definition pick_collection (g : Grid) (options : Options)
  : completion (option Collection) * Grid :=
  match root options with
  | Some r =>
      if JS.truthy_str r && negb (String.eqb r (curCol g))
      then (Collection_new (mongo g) (r +:+ ".files"), g)
      else match files g with
           | (Return c, g') => (Return (Some c), g')
           | (Throw e, g') => (Throw e, g')
           end
  | None =>
      match files g with
      | (Return c, g') => (Return (Some c), g')
      | (Throw e, g') => (Throw e, g')
      end
  end.

(** [Grid.prototype.findOne(options, callback)]; [callback] tells whether
    a function was passed.  The result is what the callback is invoked
    with: [cursor.nextObject] gives the first document of the cursor, or
    [null] when there is none. *)
Definition findOne (g : Grid) (options : Options) (callback : bool)
  : completion (callback_args (option object)) * Grid :=
  if negb callback then (Throw "findOne requires a callback function", g)
  else
    let find := build_query g options in
    match pick_collection g options with
    | (Throw e, g') => (Throw e, g')
    | (Return None, g') => (Return (CallErr "No collection specified"), g')
    | (Return (Some c), g') =>
        match db_find (db g') c find with
        | FindErr err => (Return (CallErr err), g')
        | FindNoCursor => (Return (CallErr "Collection not found"), g')
        | FindCursor docs => (Return (CallOk (head docs)), g')
        end
    end.

(** [Grid.prototype.find(options, callback)]; [cursor.toArray] gives all
    the documents of the cursor. *)
Definition find (g : Grid) (options : Options) (callback : bool)
  : completion (callback_args (list object)) * Grid :=
  if negb callback then (Throw "find requires a callback function", g)
  else
    let find := build_query g options in
    match pick_collection g options with
    | (Throw e, g') => (Throw e, g')
    | (Return None, g') => (Return (CallErr "No collection specified"), g')
    | (Return (Some c), g') =>
        match db_find (db g') c find with
        | FindErr err => (Return (CallErr err), g')
        | FindNoCursor => (Return (CallErr "Collection not found"), g')
        | FindCursor docs => (Return (CallOk docs), g')
        end
    end.



(** ** Cache support *)

(** The file document handed to [setCacheControl]: GridFS keeps [md5] and
    [contentType] as strings and [uploadDate] as a date; each may be
    missing. *)
Record FileMetadata := {
  md5 : option string;
  uploadDate : option JSDate.Date;
  contentType : option string
}.

(** The request of a node server, [http.IncomingMessage]: its header
    dictionary, names in lower case and values strings.  Other objects
    passed as the request are [RequestObject]s, below. *)
Record Request := {
  headers : gmap string string
}.

(** The headers written to a response, oldest first. *)
Abbreviation Response := (list (string * string)).

Definition setHeader (name v : string) (r : Response) : Response := r ++ [(name, v)].

(** [Grid.prototype._checkForCacheFromRequest(request, match)] on a
    request that has its header dictionary. *)
Definition _checkForCacheFromRequest (request : Request) (match_ : string) : bool :=
  let cache :=
    match headers request !! "cache-control" with
    | Some v => if JS.truthy_str v then Some (JS.split ", " v) else None
    | None => None
    end in
  match cache with
  | None => true
  | Some cache =>
      if negb (JS.indexOf cache "no-cache" =? -1)
         || negb (JS.indexOf cache "private" =? -1)
         || match headers request !! "if-none-match" with
            | Some etag => JS.truthy_str etag && negb (String.eqb etag match_)
            | None => false
            end
      then true
      else false
  end.

(** *** Requests and responses as the code meets them

    [setCacheControl] tests its arguments for truthiness only, so it runs
    on any object.  What then matters of a request is whether it has a
    [headers] member, and of a response whether it has Express's [set]
    method and whether node's [setHeader] takes the header it is given. *)

(** A request object: its [headers] member, [None] when it has none. *)
Record RequestObject := {
  req_headers : option (gmap string string)
}.

(** A response object: [has_set] tells whether [response.set] is there
    (Express adds it, node's own [http.ServerResponse] has none);
    [refusal name v] is the error [setHeader(name, v)] throws, if it
    throws (headers already sent, a character no header may hold);
    [res_headers] are the headers written so far. *)
Record ResponseObject := {
  has_set : bool;
  refusal : string -> string -> option string;
  res_headers : Response
}.

(** [response.setHeader(name, v)]: the response afterwards, or the error
    thrown. *)
Definition node_setHeader (name v : string) (r : ResponseObject)
    : string + ResponseObject :=
  match refusal r name v with
  | Some msg => inl msg
  | None => inr {| has_set := has_set r; refusal := refusal r;
                   res_headers := setHeader name v (res_headers r) |}
  end.

(** Express's [response.set(obj)]: [setHeader] for one key after the
    other, in the order of the object's keys; the first error ends it,
    and the headers written before stay written.  The result is the
    response afterwards, with the error if there was one. *)
Fixpoint express_set (obj : list (string * string)) (r : ResponseObject)
    : ResponseObject * option string :=
  match obj with
  | [] => (r, None)
  | (name, v) :: obj' =>
      match node_setHeader name v r with
      | inl msg => (r, Some msg)
      | inr r' => express_set obj' r'
      end
  end.

(** [Grid.prototype._checkForCacheFromRequest(request, match)] on any
    request object: the read of [request.headers['cache-control']]
    throws when the request has no [headers]. *)
Definition _checkForCacheFromRequest_on (request : RequestObject) (match_ : string)
    : completion bool :=
  match req_headers request with
  | None => Throw "TypeError: Cannot read property 'cache-control' of undefined"
  | Some h => Return (_checkForCacheFromRequest {| headers := h |} match_)
  end.

(** [Grid.prototype.setCacheControl(metadata, request, response)]: the
    completion, and the response afterwards.  After the two guards it
    calls [response.set], a TypeError when the response has no such
    method; then [_checkForCacheFromRequest]; then, to serve,
    [response.setHeader]. *)
Definition setCacheControl_on (metadata : option FileMetadata)
    (request : option RequestObject) (response : option ResponseObject)
    : completion Z * option ResponseObject :=
  match metadata, request, response with
  | Some m, Some rq, Some rs =>
      match md5 m, uploadDate m, contentType m with
      | Some sum, Some date, Some ctype =>
          if negb (JS.truthy_str sum) || negb (JS.truthy_str ctype)
          then (Throw "metadata should have md5, uploadDate and contentType members",
                response)
          else if negb (has_set rs)
          then (Throw "TypeError: response.set is not a function", response)
          else
            match
              express_set
                [("Pragma", "public");
                 ("Accept-Ranges", "bytes");
                 ("Cache-Control", "public, max-age=0");
                 ("ETag", sum);
                 ("Last-Modified", JSDate.toUTCString (JSDate.new_Date date))] rs
            with
            | (rs, Some msg) => (Throw msg, Some rs)
            | (rs, None) =>
                match _checkForCacheFromRequest_on rq sum with
                | Throw msg => (Throw msg, Some rs)
                | Return true =>
                    match node_setHeader "Content-Type" ctype rs with
                    | inl msg => (Throw msg, Some rs)
                    | inr rs => (Return 200, Some rs)
                    end
                | Return false => (Return 304, Some rs)
                end
            end
      | _, _, _ =>
          (Throw "metadata should have md5, uploadDate and contentType members",
           response)
      end
  | _, _, _ => (Throw "Grid.setCacheControl(metadata, request, response)", response)
  end.

(** The request of a node server, and the response of an Express server
    that takes every header, as objects. *)
Definition incoming (rq : Request) : RequestObject :=
  {| req_headers := Some (headers rq) |}.

Definition express (rs : Response) : ResponseObject :=
  {| has_set := true; refusal := fun _ _ => None; res_headers := rs |}.

(** [setCacheControl] between a node request and an Express response
    that takes every header, the response seen through the headers
    written to it. *)
Definition setCacheControl (metadata : option FileMetadata) (request : option Request)
    (response : option Response) : completion Z * option Response :=
  let r := setCacheControl_on metadata (incoming <$> request) (express <$> response) in
  (fst r, res_headers <$> snd r).



(** ** Reference collaborators

    A driver and a database to run the code on: an [ObjectID] that takes
    strings of 24 hexadecimal digits (and ids themselves), the default
    root collection fs that the specification gives, a [Collection]
    that works without [new] and gives the collection it is asked for,
    and a database in memory whose collections keep their documents in
    insertion order. *)

Definition is_hex (c : ascii) : bool :=
  let n := nat_of_ascii c in
  (((48 <=? n) && (n <=? 57)) || ((65 <=? n) && (n <=? 70))
   || ((97 <=? n) && (n <=? 102)))%nat.

Definition hex24 (v : value) : option ObjectID :=
  match v with
  | VStr s =>
      if (String.length s =? 24)%nat && forallb is_hex (list_ascii_of_string s)
      then Some (Oid s) else None
  | VOid o => Some o
  | _ => None
  end.

Definition native : Mongo :=
  {| GridStore := Some {| DEFAULT_ROOT_COLLECTION := "fs" |};
     ObjectID_new := hex24;
     Collection_new := fun name => Return (Some (Coll name)) |}.

(** A document matches a query when it holds, under every key of the
    query, the value the query gives. *)
Definition doc_matches (query doc : object) : bool :=
  bool_decide (map_Forall (fun k v => doc !! k = Some v) query).

Definition mem_find (colls : gmap string (list object)) (c : Collection) (query : object)
  : find_reply :=
  match c with
  | Coll name => FindCursor (List.filter (doc_matches query) (default [] (colls !! name)))
  end.

Definition mem_db (colls : gmap string (list object)) : Db :=
  {| db_find := mem_find colls |}.

(** ** The operations of a handle, as a transition system *)

Inductive op :=
| OpFiles
| OpCollection (name : option string)
| OpRemove (options : Options)
| OpExist (options : Options)
| OpFindOne (options : Options) (callback : bool)
| OpFind (options : Options) (callback : bool)
| OpTryParseObjectId (v : value)
| OpSetCacheControl (metadata : option FileMetadata) (request : option Request)
    (response : option Response).

(** The handle after an operation. *)
Definition step (g : Grid) (o : op) : Grid :=
  match o with
  | OpFiles => snd (files g)
  | OpCollection name => snd (collection name g)
  | OpRemove _ => g
  | OpExist _ => g
  | OpFindOne options callback => snd (findOne g options callback)
  | OpFind options callback => snd (find g options callback)
  | OpTryParseObjectId _ => g
  | OpSetCacheControl _ _ _ => g
  end.

Definition run (g : Grid) (ops : list op) : Grid := fold_left step ops g.

(** An operation that names a default collection: [collection(name)]
    with a name that is not empty. *)
Definition renames (o : op) : bool :=
  match o with
  | OpCollection name => JS.truthy_prop name
  | _ => false
  end.

(** ** Conditions the theorems are stated with *)

(** The metadata passes the guard of [setCacheControl]: [md5],
    [uploadDate] and [contentType] are there, and the two strings are not
    empty. *)
Definition cacheable (m : FileMetadata) (sum : string) (date : JSDate.Date)
    (ctype : string) : Prop :=
  md5 m = Some sum /\ uploadDate m = Some date /\ contentType m = Some ctype
  /\ sum <> "" /\ ctype <> "".

(** When [_checkForCacheFromRequest] asks to serve: the cache-control
    header is missing or empty, or one of the pieces between its ", "
    separators is no-cache or private, or the if-none-match header is
    there, not empty, and differs from the checksum. *)
Definition serve_condition (checksum : string) (h : gmap string string) : Prop :=
  (h !! "cache-control" = None \/ h !! "cache-control" = Some "")
  \/ (exists v, h !! "cache-control" = Some v
                /\ (In "no-cache" (JS.split ", " v) \/ In "private" (JS.split ", " v)))
  \/ (exists etag, h !! "if-none-match" = Some etag /\ etag <> "" /\ etag <> checksum).

(** The headers [setCacheControl] writes under both dispositions. *)
Definition cache_headers (sum : string) (date : JSDate.Date) : list (string * string) :=
  [("Pragma", "public");
   ("Accept-Ranges", "bytes");
   ("Cache-Control", "public, max-age=0");
   ("ETag", sum);
   ("Last-Modified", JSDate.toUTCString date)].


(** The collection of [curCol]. *)
Definition default_of (g : Grid) : Collection := Coll (curCol g +:+ ".files").

(** What holds of every handle the constructor and the operations
    produce: the cached collection is the one of [curCol], and [curCol]
    is empty only when the driver's own default is. *)
Definition consistent (g : Grid) : Prop :=
  (forall c, _col g = Some c -> c = default_of g)
  /\ (curCol g = "" ->
      exists gs, GridStore (mongo g) = Some gs /\ DEFAULT_ROOT_COLLECTION gs = "").

(** ** The claims of the specification, in its words *)

Module Claimed.

(** "Disposition is serve when no cache-control header is present, or it
    contains no-cache/private, or if-none-match is present and differs
    from checksum; otherwise not modified." *)
Definition serve (checksum : string) (h : gmap string string) : Prop :=
  h !! "cache-control" = None
  \/ (exists v, h !! "cache-control" = Some v
                /\ (JS.includes v "no-cache" = true \/ JS.includes v "private" = true))
  \/ (exists etag, h !! "if-none-match" = Some etag /\ etag <> checksum).

(** "The resolver deterministically picks the most recent by
    uploadDate": no matching record is more recent than the one picked. *)
Definition most_recent_of (picked : object) (matching : list object) : Prop :=
  In picked matching
  /\ forall d t t', In d matching ->
       d !! "uploadDate" = Some (VDate (JSDate.TimeValue t)) ->
       picked !! "uploadDate" = Some (VDate (JSDate.TimeValue t')) ->
       t <= t'.

End Claimed.

(** ** Sample inputs *)

Definition request_of (hs : list (string * string)) : Request :=
  {| headers := list_to_map hs |}.

Definition sample_date : JSDate.Date := JSDate.TimeValue 1793638920000.

Definition sample_metadata : FileMetadata :=
  {| md5 := Some "abc123"; uploadDate := Some sample_date;
     contentType := Some "text/plain" |}.

(** Two uploads of a.txt, the older one first. *)
Definition older_upload : object :=
  {[ "filename" := VStr "a.txt"; "uploadDate" := VDate (JSDate.TimeValue 1000) ]}.

Definition newer_upload : object :=
  {[ "filename" := VStr "a.txt"; "uploadDate" := VDate (JSDate.TimeValue 2000) ]}.

Definition sample_colls : gmap string (list object) :=
  {[ "fs.files" := [older_upload; newer_upload] ]}.

Definition sample_grid : Grid :=
  {| db := mem_db sample_colls; mongo := native; curCol := "fs"; _col := None |}.

Definition by_filename (name : string) : Options :=
  {| root := None; fields := {[ "filename" := VStr name ]} |}.

(** A selection whose [_id] is the empty string. *)
Definition empty_id : Options :=
  {| root := None; fields := {[ "_id" := VStr ""; "filename" := VStr "a.txt" ]} |}.

(** A selection whose [_id] is the 24 hexadecimal digits of an id. *)
Definition hex_id : Options :=
  {| root := None;
     fields := {[ "_id" := VStr "507f1f77bcf86cd799439011";
                  "filename" := VStr "a.txt" ]} |}.


(** Metadata whose upload date is an invalid Date, and metadata uploaded
    in the first second of the year 10000. *)
Definition undated_metadata : FileMetadata :=
  {| md5 := Some "abc123"; uploadDate := Some JSDate.InvalidDate;
     contentType := Some "text/plain" |}.

Definition far_metadata : FileMetadata :=
  {| md5 := Some "abc123";
     uploadDate := Some (JSDate.TimeValue (JSDate.max_http_time + 1));
     contentType := Some "text/plain" |}.




(** ** Notions for the further properties of the handle *)

(** The name the last [collection(name)] of a sequence of operations
    gave, [acc] when none gave one. *)
Fixpoint last_named (ops : list op) (acc : option string) : option string :=
  match ops with
  | [] => acc
  | OpCollection (Some name) :: rest =>
      last_named rest (if JS.truthy_str name then Some name else acc)
  | _ :: rest => last_named rest acc
  end.

(** The root a query goes to: the one of its options when it is not
    empty, the one of the handle otherwise. *)
Definition effective_root (g : Grid) (options : Options) : string :=
  match root options with
  | Some r => if JS.truthy_str r then r else curCol g
  | None => curCol g
  end.

(** What [findOne] hands to its callback for a reply of the driver. *)
Definition reply_one (r : find_reply) : callback_args (option object) :=
  match r with
  | FindErr err => CallErr err
  | FindNoCursor => CallErr "Collection not found"
  | FindCursor docs => CallOk (head docs)
  end.

(** What [find] hands to its callback for a reply of the driver. *)
Definition reply_all (r : find_reply) : callback_args (list object) :=
  match r with
  | FindErr err => CallErr err
  | FindNoCursor => CallErr "Collection not found"
  | FindCursor docs => CallOk docs
  end.

(** The first document of what [find] hands to its callback. *)
Definition first_of (a : callback_args (list object)) : callback_args (option object) :=
  match a with
  | CallErr e => CallErr e
  | CallOk docs => CallOk (head docs)
  end.

Definition lift_first (c : completion (callback_args (list object)))
  : completion (callback_args (option object)) :=
  match c with
  | Return a => Return (first_of a)
  | Throw msg => Throw msg
  end.

(** The handles the constructor and the operations produce. *)
Definition reachable (g : Grid) : Prop :=
  exists gm d m g0 ops, Grid_new gm d m = Return g0 /\ g = run g0 ops.


(** A driver that has no GridStore, and a handle on it. *)
Definition bare : Mongo :=
  {| GridStore := None;
     ObjectID_new := hex24;
     Collection_new := fun name => Return (Some (Coll name)) |}.

Definition bare_grid : Grid :=
  {| db := mem_db sample_colls; mongo := bare; curCol := "fs"; _col := None |}.

(** A run of operations on a handle. *)
Definition sample_ops : list op :=
  [OpFindOne (by_filename "a.txt") true; OpCollection (Some "photos");
   OpCollection (Some "other"); OpFiles; OpCollection None;
   OpRemove (by_filename "a.txt")].

(** Operations that give no root. *)
Definition quiet_ops : list op :=
  [OpFindOne (by_filename "a.txt") true; OpFiles; OpCollection None;
   OpFind (by_filename "a.txt") true].

(** A selection in the root collection photos. *)
Definition in_photos : Options :=
  {| root := Some "photos"; fields := {[ "filename" := VStr "a.txt" ]} |}.



(** The sample metadata, uploaded 999 milliseconds later. *)
Definition later_metadata : FileMetadata :=
  {| md5 := Some "abc123"; uploadDate := Some (JSDate.TimeValue 1793638920999);
     contentType := Some "text/plain" |}.

(** ** The write and read sessions *)

(** Modelled from the spec: [lib/writestream.js] and [lib/readstream.js],
    which [createWriteStream] and [createReadStream] instantiate, are not
    among the sources.  The chunk store, the WriteSession and the
    ReadSession of this module follow sections 3, 4.1, 4.2 and 6 of the
    specification. *)

Module Sessions.

Abbreviation bytes := (list Byte.byte).

Inductive error :=
| InvalidArgument
| NotFound
| InvalidRange
| MissingChunk
| WriteAfterClose
| StoreError.

Inductive result (A : Type) :=
| Ok (a : A)
| Err (e : error).
Arguments Ok {A} a.
Arguments Err {A} e.

(** Modelled from the spec: FileMetadata (section 3), one record per
    logical file. *)
Record FileMetadata := {
  id : string;
  filename : option string;
  length : Z;
  chunkSize : Z;
  checksum : string;
  uploadDate : Z;
  contentType : option string;
  aliases : list string;
  metadata : option string;
  root : string
}.

(** The configuration structure of a session. *)
Record Config := {
  cfg_id : option string;
  cfg_filename : option string;
  cfg_root : option string;
  cfg_chunkSize : option Z;
  cfg_contentType : option string;
  cfg_aliases : list string;
  cfg_metadata : option string;
  cfg_rangeStart : option Z;
  cfg_rangeEnd : option Z
}.

Definition default_chunkSize : Z := 262144.
Definition default_root : string := "fs".

(** Modelled from the spec: the ChunkStore collaborator (sections 2 and
    6), in memory: chunks keyed by file identifier and sequence number,
    metadata records in the order they were put, and whether the store
    has lost its connection (every call then gives StoreError). *)
Record ChunkStore := {
  chunks : gmap (string * Z) bytes;
  metas : list FileMetadata;
  failing : bool
}.

Definition putChunk (s : ChunkStore) (fileId : string) (seq : Z) (b : bytes)
  : result ChunkStore :=
  if failing s then Err StoreError
  else Ok {| chunks := <[(fileId, seq) := b]> (chunks s);
             metas := metas s; failing := failing s |}.

Definition getChunk (s : ChunkStore) (fileId : string) (seq : Z) : result bytes :=
  if failing s then Err StoreError
  else match chunks s !! (fileId, seq) with
       | Some b => Ok b
       | None => Err NotFound
       end.

Definition putMetadata (s : ChunkStore) (m : FileMetadata) : result ChunkStore :=
  if failing s then Err StoreError
  else Ok {| chunks := chunks s; metas := metas s ++ [m]; failing := failing s |}.

(** Selection criteria: identifier, filename, root; a criterion that is
    not given matches every record. *)
Record Criteria := {
  by_id : option string;
  by_filename : option string;
  by_root : option string
}.

Definition matches (c : Criteria) (m : FileMetadata) : bool :=
  match by_id c with Some i => String.eqb i (id m) | None => true end
  && match by_filename c with
     | Some n => match filename m with Some n' => String.eqb n n' | None => false end
     | None => true
     end
  && match by_root c with Some r => String.eqb r (root m) | None => true end.

Definition findMetadata (s : ChunkStore) (c : Criteria) : result (list FileMetadata) :=
  if failing s then Err StoreError
  else Ok (List.filter (matches c) (metas s)).

(** The running digest of the checksum. *)
Record DigestAlg := {
  dg_state : Type;
  dg_init : dg_state;
  dg_update : dg_state -> bytes -> dg_state;
  dg_final : dg_state -> string
}.

Module WriteSession.

Inductive status_t := Open | Flushing | Closed | Failed.

Section WithDigest.
Context (D : DigestAlg).

Record state := {
  buffer : bytes;
  bufferedLength : Z;
  nextSeq : Z;
  totalLength : Z;
  checksum_acc : dg_state D;
  fileId : string;
  status : status_t;
  config : Config;
  chunk_size : Z;
  namespace : string
}.

Definition with_status (st : status_t) (w : state) : state :=
  {| buffer := buffer w; bufferedLength := bufferedLength w; nextSeq := nextSeq w;
     totalLength := totalLength w; checksum_acc := checksum_acc w;
     fileId := fileId w; status := st; config := config w;
     chunk_size := chunk_size w; namespace := namespace w |}.

(** Modelled from the spec: [open(selection)] of the WriteSession
    (section 4.1); [generated] is the identifier to use when the
    selection brings none.  Nothing is persisted. *)
Definition open (cfg : Config) (generated : string) : result state :=
  let size := default default_chunkSize (cfg_chunkSize cfg) in
  if size <=? 0 then Err InvalidArgument
  else Ok {| buffer := []; bufferedLength := 0; nextSeq := 0; totalLength := 0;
             checksum_acc := dg_init D;
             fileId := default generated (cfg_id cfg);
             status := Open; config := cfg; chunk_size := size;
             namespace := default default_root (cfg_root cfg) |}.

(** Modelled from the spec: the greedy flush of [write] (section 4.1).
    While [bufferedLength >= chunkSize], the first
    [chunkSize] bytes of the buffer are persisted as chunk [nextSeq].
    Each round takes at least one byte off the buffer, so the length of
    the buffer bounds the number of rounds. *)
Fixpoint flush (rounds : nat) (w : state) (s : ChunkStore)
  : option error * state * ChunkStore :=
  match rounds with
  | O => (None, w, s)
  | S k =>
      if chunk_size w <=? bufferedLength w then
        match putChunk s (fileId w) (nextSeq w)
                (take (Z.to_nat (chunk_size w)) (buffer w)) with
        | Err e => (Some e, with_status Failed w, s)
        | Ok s' =>
            flush k
              {| buffer := drop (Z.to_nat (chunk_size w)) (buffer w);
                 bufferedLength := bufferedLength w - chunk_size w;
                 nextSeq := nextSeq w + 1;
                 totalLength := totalLength w; checksum_acc := checksum_acc w;
                 fileId := fileId w; status := status w; config := config w;
                 chunk_size := chunk_size w; namespace := namespace w |}
              s'
        end
      else (None, w, s)
  end.

(** Modelled from the spec: [write(bytes)] (section 4.1). *)
Definition write (w : state) (s : ChunkStore) (b : bytes)
  : option error * state * ChunkStore :=
  match status w with
  | Open =>
      let w1 :=
        {| buffer := buffer w ++ b;
           bufferedLength := bufferedLength w + Z.of_nat (List.length b);
           nextSeq := nextSeq w;
           totalLength := totalLength w + Z.of_nat (List.length b);
           checksum_acc := dg_update D (checksum_acc w) b;
           fileId := fileId w; status := status w; config := config w;
           chunk_size := chunk_size w; namespace := namespace w |} in
      flush (List.length (buffer w1)) w1 s
  | _ => (Some WriteAfterClose, w, s)
  end.

(** Modelled from the spec: [end()] (section 4.1); [now] is the time of
    completion. *)
Definition end_ (w : state) (s : ChunkStore) (now : Z)
  : option error * state * ChunkStore :=
  match status w with
  | Open =>
      let w1 := with_status Flushing w in
      let flushed :=
        match buffer w1 with
        | [] => Ok s
        | _ :: _ => putChunk s (fileId w1) (nextSeq w1) (buffer w1)
        end in
      match flushed with
      | Err e => (Some e, with_status Failed w1, s)
      | Ok s1 =>
          let record :=
            {| id := fileId w1;
               filename := cfg_filename (config w1);
               length := totalLength w1;
               chunkSize := chunk_size w1;
               checksum := dg_final D (checksum_acc w1);
               uploadDate := now;
               contentType := cfg_contentType (config w1);
               aliases := cfg_aliases (config w1);
               metadata := cfg_metadata (config w1);
               root := namespace w1 |} in
          match putMetadata s1 record with
          | Err e => (Some e, with_status Failed w1, s1)
          | Ok s2 => (None, with_status Closed w1, s2)
          end
      end
  | _ => (Some WriteAfterClose, w, s)
  end.

(** A producer pushing several buffers, stopping at the first failure. *)
Fixpoint write_all (w : state) (s : ChunkStore) (bs : list bytes)
  : option error * state * ChunkStore :=
  match bs with
  | [] => (None, w, s)
  | b :: rest =>
      match write w s b with
      | (None, w', s') => write_all w' s' rest
      | failed => failed
      end
  end.

End WithDigest.
End WriteSession.

Module ReadSession.

Inductive status_t := Resolving | Streaming | Done | Failed.

Record state := {
  metadata : FileMetadata;
  rangeStart : Z;
  rangeEnd : Z;
  nextSeq : Z;
  status : status_t
}.

Definition with_status (st : status_t) (r : state) : state :=
  {| metadata := metadata r; rangeStart := rangeStart r; rangeEnd := rangeEnd r;
     nextSeq := nextSeq r; status := st |}.

(** [ceil(a / b)] for a positive [b]. *)
Definition ceil_div (a b : Z) : Z := - ((- a) / b).

Definition startSeq (r : state) : Z := rangeStart r / chunkSize (metadata r).
Definition endSeq (r : state) : Z := ceil_div (rangeEnd r) (chunkSize (metadata r)) - 1.

(** The tie-break of an ambiguous selection: the most recent record by
    [uploadDate], the earliest found among equally recent ones. *)
Fixpoint most_recent (best : FileMetadata) (ms : list FileMetadata) : FileMetadata :=
  match ms with
  | [] => best
  | m :: rest =>
      most_recent (if uploadDate best <? uploadDate m then m else best) rest
  end.

Definition criteria_of (cfg : Config) : Criteria :=
  match cfg_id cfg with
  | Some i => {| by_id := Some i; by_filename := None; by_root := cfg_root cfg |}
  | None => {| by_id := None; by_filename := cfg_filename cfg; by_root := cfg_root cfg |}
  end.

(** Modelled from the spec: [open(selection)] of the ReadSession
    (section 4.2), with the range validation. *)
Definition open (cfg : Config) (s : ChunkStore) : result state :=
  match cfg_id cfg, cfg_filename cfg with
  | None, None => Err InvalidArgument
  | _, _ =>
      match findMetadata s (criteria_of cfg) with
      | Err e => Err e
      | Ok [] => Err NotFound
      | Ok (m :: rest) =>
          let m := most_recent m rest in
          let rs := default 0 (cfg_rangeStart cfg) in
          let re := default (length m) (cfg_rangeEnd cfg) in
          if (rs <? 0) || (length m <? re) || (re <? rs) then Err InvalidRange
          else
            let r := {| metadata := m; rangeStart := rs; rangeEnd := re;
                        nextSeq := 0; status := Resolving |} in
            Ok {| metadata := m; rangeStart := rs; rangeEnd := re;
                  nextSeq := startSeq r; status := Streaming |}
      end
  end.

(** What [nextChunk()] hands to the consumer. *)
Inductive pulled :=
| Slice (b : bytes)
| EndOfStream
| Failure (e : error).

(** Modelled from the spec: the trimming of [nextChunk] (section 4.2).
    The payload of chunk [seq] is cut to the range: the last chunk ends at
    the final byte of the range, the first one loses the bytes before
    its start. *)
Definition trim (r : state) (seq : Z) (payload : bytes) : bytes :=
  let size := chunkSize (metadata r) in
  let payload :=
    if seq =? endSeq r then take (Z.to_nat (rangeEnd r - seq * size)) payload
    else payload in
  if seq =? startSeq r then drop (Z.to_nat (rangeStart r mod size)) payload
  else payload.

(** Modelled from the spec: [nextChunk()] (section 4.2).  Outside
    [Streaming] nothing more is produced. *)
Definition nextChunk (r : state) (s : ChunkStore) : pulled * state :=
  match status r with
  | Streaming =>
      if endSeq r <? nextSeq r then (EndOfStream, with_status Done r)
      else
        match getChunk s (id (metadata r)) (nextSeq r) with
        | Err NotFound => (Failure MissingChunk, with_status Failed r)
        | Err e => (Failure e, with_status Failed r)
        | Ok payload =>
            (Slice (trim r (nextSeq r) payload),
             {| metadata := metadata r; rangeStart := rangeStart r;
                rangeEnd := rangeEnd r; nextSeq := nextSeq r + 1;
                status := status r |})
        end
  | _ => (EndOfStream, r)
  end.

(** A consumer pulling until the end of the stream, at most [pulls]
    times: the slices in order, how the stream ended, the session. *)
Fixpoint drain (pulls : nat) (r : state) (s : ChunkStore)
  : list bytes * option error * state :=
  match pulls with
  | O => ([], None, r)
  | S k =>
      match nextChunk r s with
      | (Slice b, r') =>
          let '(rest, e, r'') := drain k r' s in (b :: rest, e, r'')
      | (EndOfStream, r') => ([], None, r')
      | (Failure e, r') => ([], Some e, r')
      end
  end.

(** The chunks from [nextSeq] to [endSeq], and the pull that meets the
    end of the stream. *)
Definition pulls_needed (r : state) : nat := Z.to_nat (endSeq r - nextSeq r + 2).

Definition readAll (r : state) (s : ChunkStore) : list bytes * option error * state :=
  drain (pulls_needed r) r s.

End ReadSession.

(** *** What the sessions keep and leave in the store *)

(** Chunk [i] of the bytes [B] cut at every [C] bytes. *)
Definition chunk_at (C : Z) (B : bytes) (i : Z) : bytes :=
  take (Z.to_nat C) (drop (Z.to_nat (i * C)) B).

(** What holds between two writes of a session on file [f] with chunk
    size [C] that has taken the bytes [B] so far: the chunks before
    [nextSeq] are in the store, the buffer holds the rest. *)
Definition written (D : DigestAlg) (f : string) (C : Z) (s0 : ChunkStore)
    (B : bytes) (w : WriteSession.state D) (s : ChunkStore) : Prop :=
  WriteSession.status D w = WriteSession.Open
  /\ WriteSession.fileId D w = f
  /\ WriteSession.chunk_size D w = C
  /\ 0 <= WriteSession.nextSeq D w
  /\ WriteSession.nextSeq D w * C <= Z.of_nat (List.length B)
  /\ WriteSession.buffer D w = drop (Z.to_nat (WriteSession.nextSeq D w * C)) B
  /\ WriteSession.bufferedLength D w
     = Z.of_nat (List.length (WriteSession.buffer D w))
  /\ WriteSession.totalLength D w = Z.of_nat (List.length B)
  /\ (forall i, 0 <= i < WriteSession.nextSeq D w ->
        chunks s !! (f, i) = Some (chunk_at C B i))
  /\ metas s = metas s0 /\ failing s = false.

(** The store holds a complete file: its record after those of [s0], and
    every chunk that covers a byte of [B]. *)
Definition stored (f : string) (C : Z) (s0 : ChunkStore) (B : bytes)
    (record : FileMetadata) (s : ChunkStore) : Prop :=
  metas s = (metas s0 ++ [record])%list
  /\ id record = f /\ length record = Z.of_nat (List.length B)
  /\ chunkSize record = C /\ failing s = false
  /\ (forall i, 0 <= i -> i * C < Z.of_nat (List.length B) ->
        chunks s !! (f, i) = Some (chunk_at C B i)).

(** The chunks [k], [k + 1], ... of [B], [m] of them. *)
Fixpoint chunks_from (C : Z) (B : bytes) (k : Z) (m : nat) : list bytes :=
  match m with
  | O => []
  | S m' => chunk_at C B k :: chunks_from C B (k + 1) m'
  end.

(** A toy digest: the sum of the bytes modulo 65536, in decimal. *)
Definition byte_sum : DigestAlg :=
  {| dg_state := Z;
     dg_init := 0;
     dg_update := fun acc b =>
       fold_left (fun a x => (a + Z.of_N (Byte.to_N x)) mod 65536) b acc;
     dg_final := JSDate.decimal |}.

(** A store with nothing in it. *)
Definition empty_store : ChunkStore :=
  {| chunks := ∅; metas := []; failing := false |}.

(** A configuration that gives the identifier and the chunk size. *)
Definition config_of (f : string) (size : Z) : Config :=
  {| cfg_id := Some f; cfg_filename := None; cfg_root := None;
     cfg_chunkSize := Some size; cfg_contentType := None; cfg_aliases := [];
     cfg_metadata := None; cfg_rangeStart := None; cfg_rangeEnd := None |}.

(** The selection of a file by its identifier alone, the full range. *)
Definition select_id (f : string) : Config :=
  {| cfg_id := Some f; cfg_filename := None; cfg_root := None;
     cfg_chunkSize := None; cfg_contentType := None; cfg_aliases := [];
     cfg_metadata := None; cfg_rangeStart := None; cfg_rangeEnd := None |}.

(** A whole upload: open, the writes, end. *)
Definition upload (D : DigestAlg) (cfg : Config) (generated : string) (s : ChunkStore)
    (bs : list bytes) (now : Z) : option error * ChunkStore :=
  match WriteSession.open D cfg generated with
  | Err e => (Some e, s)
  | Ok w0 =>
      match WriteSession.write_all D w0 s bs with
      | (Some e, _, s1) => (Some e, s1)
      | (None, w1, s1) =>
          let '(e, _, s2) := WriteSession.end_ D w1 s1 now in (e, s2)
      end
  end.

(** A whole download: open, then the slices up to the end of the stream. *)
Definition download (cfg : Config) (s : ChunkStore) : result (list bytes) :=
  match ReadSession.open cfg s with
  | Err e => Err e
  | Ok r =>
      match ReadSession.readAll r s with
      | (slices, None, _) => Ok slices
      | (_, Some e, _) => Err e
      end
  end.

(** The store after the upload of hello world with chunk size 4. *)
Definition hello_store : ChunkStore :=
  snd (upload byte_sum (config_of "file1" 4) "generated" empty_store
         [list_byte_of_string "hello world"] 0).

(** The selection of a byte range of a file. *)
Definition range_of (f : string) (from to : Z) : Config :=
  {| cfg_id := Some f; cfg_filename := None; cfg_root := None;
     cfg_chunkSize := None; cfg_contentType := None; cfg_aliases := [];
     cfg_metadata := None; cfg_rangeStart := Some from; cfg_rangeEnd := Some to |}.

End Sessions.

(** * Theorems *)

(** ** JavaScript helpers *)

Lemma truthy_str_true (s : string) : JS.truthy_str s = true <-> s <> "".
Proof. destruct s; simpl; split; intros; congruence. Qed.

Lemma truthy_str_false (s : string) : JS.truthy_str s = false <-> s = "".
Proof. destruct s; simpl; split; intros; congruence. Qed.

Lemma indexOf_from_In (x : string) (xs : list string) (i : Z) :
  0 <= i -> JS.indexOf_from i x xs <> -1 <-> In x xs.
Proof.
  revert i. induction xs as [|y ys IH]; intros i Hi; simpl.
  - split; [congruence | tauto].
  - destruct (String.eqb_spec y x) as [->|Hne].
    + split; [auto | intros _; lia].
    + rewrite IH by lia. split; [auto | intros [?|?]; [congruence | assumption]].
Qed.

Lemma indexOf_In (x : string) (xs : list string) :
  negb (JS.indexOf xs x =? -1) = true <-> In x xs.
Proof.
  unfold JS.indexOf. rewrite <- (indexOf_from_In x xs 0) by lia.
  rewrite negb_true_iff, Z.eqb_neq. tauto.
Qed.

Lemma split_go_cons sep k cur s : exists x xs, JS.split_go sep k cur s = x :: xs.
Proof.
  revert k cur. induction s as [|c s IH]; intros k cur; cbn [JS.split_go]; eauto.
  destruct k; [|apply IH]. destruct (String.prefix sep (String c s)); [eauto | apply IH].
Qed.

Lemma join_cons sep x y ys : JS.join sep (x :: y :: ys) = x +:+ sep +:+ JS.join sep (y :: ys).
Proof. reflexivity. Qed.

Lemma append_cons (a : ascii) (s t : string) : String a s +:+ t = String a (s +:+ t).
Proof. reflexivity. Qed.

Lemma append_nil (t : string) : "" +:+ t = t.
Proof. reflexivity. Qed.

Lemma append_nil_r (t : string) : t +:+ "" = t.
Proof. induction t as [|a t IH]; [reflexivity|]. now rewrite append_cons, IH. Qed.

Lemma prefix_drop sep s :
  String.prefix sep s = true -> sep +:+ JS.string_drop (String.length sep) s = s.
Proof.
  revert s. induction sep as [|a sep IH]; intros s H; [reflexivity|].
  destruct s as [|b s]; [discriminate|]. simpl in H.
  destruct (Ascii.ascii_dec a b) as [->|]; [|discriminate].
  cbn [String.length JS.string_drop]. now rewrite append_cons, IH.
Qed.

Lemma app_assoc_str (a b c : string) : (a +:+ b) +:+ c = a +:+ (b +:+ c).
Proof. induction a as [|x a IH]; [reflexivity|]. now rewrite !append_cons, IH. Qed.

Lemma join_split_go sep k cur s :
  sep <> "" ->
  JS.join sep (JS.split_go sep k cur s) = cur +:+ JS.string_drop k s.
Proof.
  intros Hsep. revert k cur. induction s as [|c s IH]; intros k cur.
  - cbn [JS.split_go JS.join]. destruct k; cbn [JS.string_drop]; now rewrite append_nil_r.
  - cbn [JS.split_go]. destruct k as [|k]; [|apply IH].
    destruct (String.prefix sep (String c s)) eqn:Hp.
    + destruct (split_go_cons sep (String.length sep - 1) "" s) as (x & xs & E).
      pose proof (IH (String.length sep - 1)%nat "") as IH'. rewrite E in *.
      rewrite join_cons, IH'. cbn [JS.string_drop].
      apply prefix_drop in Hp. destruct sep as [|a sep]; [congruence|].
      cbn [String.length JS.string_drop] in *.
      replace (S (String.length sep) - 1)%nat with (String.length sep) by lia.
      rewrite append_nil. now rewrite Hp.
    + rewrite IH. cbn [JS.string_drop]. rewrite app_assoc_str. reflexivity.
Qed.

(** Joining the pieces of a split with the separator gives the string
    back. *)
Lemma join_split sep s : sep <> "" -> JS.join sep (JS.split sep s) = s.
Proof. intros H. unfold JS.split. now rewrite join_split_go. Qed.

Example split_examples :
  JS.split ", " "max-age=0, no-cache" = ["max-age=0"; "no-cache"]
  /\ JS.split ", " "max-age=0,no-cache" = ["max-age=0,no-cache"]
  /\ JS.split ", " "no-cache" = ["no-cache"]
  /\ JS.split ", " "a, , b, " = ["a"; ""; "b"; ""].
Proof. repeat split; reflexivity. Qed.

(** ** Dates: YearFromTime and the format of toUTCString *)

Example toUTCString_examples :
  JSDate.toUTCString (JSDate.TimeValue 0) = "Thu, 01 Jan 1970 00:00:00 GMT"
  /\ JSDate.toUTCString (JSDate.TimeValue 951782400000) = "Tue, 29 Feb 2000 00:00:00 GMT"
  /\ JSDate.toUTCString (JSDate.TimeValue (-1)) = "Wed, 31 Dec 1969 23:59:59 GMT"
  /\ JSDate.toUTCString (JSDate.TimeValue JSDate.min_http_time)
     = "Sat, 01 Jan 0000 00:00:00 GMT"
  /\ JSDate.toUTCString (JSDate.TimeValue JSDate.max_http_time)
     = "Fri, 31 Dec 9999 23:59:59 GMT"
  /\ JSDate.toUTCString (JSDate.TimeValue (JSDate.max_http_time + 1))
     = "Sat, 01 Jan 10000 00:00:00 GMT".
Proof. vm_compute. repeat split; reflexivity. Qed.

Module DateFacts.
Import JSDate.

Lemma DayFromYear_step (y : Z) : DayFromYear (y + 1) = DayFromYear y + DaysInYear y.
Proof.
  unfold DayFromYear, DaysInYear.
  destruct (Z.eqb_spec (y mod 4) 0), (Z.eqb_spec (y mod 100) 0), (Z.eqb_spec (y mod 400) 0);
    simpl; Z.div_mod_to_equations; lia.
Qed.

Lemma DaysInYear_bounds (y : Z) : 365 <= DaysInYear y <= 366.
Proof.
  unfold DaysInYear.
  repeat match goal with |- context [if ?b then _ else _] => destruct b end; lia.
Qed.

Lemma DayFromYear_after (k : Z) : 0 <= k -> 365 * k <= DayFromYear (1970 + k) <= 366 * k.
Proof. intros. unfold DayFromYear. Z.div_mod_to_equations. lia. Qed.

Lemma DayFromYear_before (k : Z) : k <= 0 -> 366 * k <= DayFromYear (1970 + k) <= 365 * k.
Proof. intros. unfold DayFromYear. Z.div_mod_to_equations. lia. Qed.

Lemma DayFromYear_mono (y1 y2 : Z) : y1 <= y2 -> DayFromYear y1 <= DayFromYear y2.
Proof. intros. unfold DayFromYear. Z.div_mod_to_equations. lia. Qed.

Lemma year_search_spec (fuel : nat) (d y : Z) :
  DayFromYear y <= d < DayFromYear (y + Z.of_nat fuel) ->
  DayFromYear (year_search fuel d y) <= d < DayFromYear (year_search fuel d y + 1).
Proof.
  revert y. induction fuel as [|n IH]; intros y Hy; simpl.
  - rewrite Z.add_0_r in Hy. lia.
  - destruct (Z.leb_spec (DayFromYear (y + 1)) d) as [Hle|Hgt].
    + apply IH. replace (y + 1 + Z.of_nat n) with (y + Z.of_nat (S n)) by lia. lia.
    + lia.
Qed.

Lemma YearFromDay_spec (d : Z) :
  DayFromYear (YearFromDay d) <= d < DayFromYear (YearFromDay d + 1).
Proof.
  unfold YearFromDay. apply year_search_spec.
  assert (Hlo : DayFromYear (year_lo d) <= d).
  { unfold year_lo. destruct (Z.le_gt_cases 0 d) as [Hd|Hd].
    - assert (0 <= d / 366 <= d / 365) by (Z.div_mod_to_equations; lia).
      rewrite Z.min_r by lia.
      pose proof (DayFromYear_after (d / 366)). Z.div_mod_to_equations. lia.
    - assert (d / 365 <= d / 366 <= 0) by (Z.div_mod_to_equations; lia).
      rewrite Z.min_l by lia.
      pose proof (DayFromYear_before (d / 365)). Z.div_mod_to_equations. lia. }
  assert (Hhi : d < DayFromYear (year_hi d + 1)).
  { unfold year_hi. destruct (Z.le_gt_cases 0 d) as [Hd|Hd].
    - assert (0 <= d / 366 <= d / 365) by (Z.div_mod_to_equations; lia).
      rewrite Z.max_l by lia.
      pose proof (DayFromYear_after (d / 365 + 1)).
      replace (1970 + d / 365 + 1) with (1970 + (d / 365 + 1)) by lia.
      Z.div_mod_to_equations. lia.
    - assert (d / 365 <= d / 366 <= 0) by (Z.div_mod_to_equations; lia).
      rewrite Z.max_r by lia.
      pose proof (DayFromYear_before (d / 366 + 1)).
      replace (1970 + d / 366 + 1) with (1970 + (d / 366 + 1)) by lia.
      Z.div_mod_to_equations. lia. }
  split; [exact Hlo|].
  assert (year_lo d <= year_hi d) by (unfold year_lo, year_hi; lia).
  rewrite Z2Nat.id by lia.
  replace (year_lo d + (year_hi d - year_lo d + 1)) with (year_hi d + 1) by lia.
  exact Hhi.
Qed.

(** YearFromTime is the largest year whose first day is not after t. *)
Lemma YearFromTime_largest (t y : Z) :
  DayFromYear y <= Day t <-> y <= YearFromTime t.
Proof.
  unfold YearFromTime. pose proof (YearFromDay_spec (Day t)) as [H1 H2].
  split; intros H.
  - destruct (Z.le_gt_cases y (YearFromDay (Day t))); [assumption|].
    pose proof (DayFromYear_mono (YearFromDay (Day t) + 1) y). lia.
  - pose proof (DayFromYear_mono y (YearFromDay (Day t))). lia.
Qed.

Lemma YearFromTime_http (t : Z) :
  min_http_time <= t <= max_http_time -> 0 <= YearFromTime t <= 9999.
Proof.
  unfold min_http_time, max_http_time. intros Ht.
  assert (Hd : DayFromYear 0 <= Day t < DayFromYear 10000).
  { unfold Day, msPerDay. change (DayFromYear 0) with (-719528).
    change (DayFromYear 10000) with 2932897. Z.div_mod_to_equations. lia. }
  split.
  - apply YearFromTime_largest. lia.
  - destruct (Z.le_gt_cases (YearFromTime t) 9999); [assumption|].
    assert (10000 <= YearFromTime t) as H' by lia.
    apply YearFromTime_largest in H'. lia.
Qed.

Lemma DayWithinYear_bounds (t : Z) :
  0 <= DayWithinYear t < DaysInYear (YearFromTime t).
Proof.
  unfold DayWithinYear, YearFromTime.
  pose proof (YearFromDay_spec (Day t)). rewrite DayFromYear_step in H. lia.
Qed.

Lemma MonthFromTime_bounds (t : Z) : 0 <= MonthFromTime t <= 11.
Proof.
  unfold MonthFromTime.
  repeat match goal with |- context [if ?b then _ else _] => destruct b end; lia.
Qed.

Lemma DateFromTime_bounds (t : Z) : 1 <= DateFromTime t <= 31.
Proof.
  pose proof (DayWithinYear_bounds t) as Hd.
  unfold DateFromTime, MonthFromTime, InLeapYear in *.
  pose proof (DaysInYear_bounds (YearFromTime t)).
  destruct (Z.eqb_spec (DaysInYear (YearFromTime t)) 366);
  repeat match goal with |- context [if ?a <? ?b then _ else _] => destruct (Z.ltb_spec a b) end;
  simpl; lia.
Qed.

Lemma is_digit_digit (n : Z) : is_digit (digit n) = true.
Proof.
  unfold digit. pose proof (Z.mod_pos_bound n 10 ltac:(lia)) as Hk.
  destruct (n mod 10) as [|p|p] eqn:E; [reflexivity| |lia].
  assert (Hp : (p < 10)%positive) by lia.
  do 4 (destruct p as [p|p|]; try reflexivity; try lia).
Qed.

Lemma digit_0 : digit 0 = "0"%char.
Proof. reflexivity. Qed.

Lemma decimal_1 (n : Z) : 0 <= n < 10 -> decimal n = String (digit n) "".
Proof.
  intros H. unfold decimal. simpl.
  destruct (Z.ltb_spec n 10); [reflexivity | lia].
Qed.

Lemma digits_go_small (k : nat) (n : Z) (acc : string) :
  n < 10 -> digits_go (S k) n acc = String (digit n) acc.
Proof. intros H. simpl. destruct (Z.ltb_spec n 10); [reflexivity | lia]. Qed.

Lemma digits_go_big (k : nat) (n : Z) (acc : string) :
  10 <= n -> digits_go (S k) n acc = digits_go k (n / 10) (String (digit n) acc).
Proof. intros H. simpl. destruct (Z.ltb_spec n 10); [lia | reflexivity]. Qed.

Lemma fuel_S (n : Z) : 0 < n -> exists k, Z.to_nat n = S k /\ Z.of_nat k = n - 1.
Proof. intros H. exists (Z.to_nat (n - 1)). lia. Qed.

Lemma decimal_2 (n : Z) :
  10 <= n < 100 -> decimal n = String (digit (n / 10)) (String (digit n) "").
Proof.
  intros H. unfold decimal.
  destruct (fuel_S n ltac:(lia)) as (k & -> & Hk).
  rewrite digits_go_big by lia.
  apply digits_go_small. Z.div_mod_to_equations; lia.
Qed.

Lemma decimal_3 (n : Z) :
  100 <= n < 1000 ->
  decimal n = String (digit (n / 100)) (String (digit (n / 10)) (String (digit n) "")).
Proof.
  intros H. unfold decimal.
  destruct (fuel_S n ltac:(lia)) as (k & -> & Hk).
  rewrite digits_go_big by lia.
  destruct k as [|k]; [lia|].
  rewrite digits_go_big by (Z.div_mod_to_equations; lia).
  rewrite Z.div_div by lia. change (10 * 10) with 100.
  apply digits_go_small. Z.div_mod_to_equations; lia.
Qed.

Lemma decimal_4 (n : Z) :
  1000 <= n < 10000 ->
  decimal n = String (digit (n / 1000)) (String (digit (n / 100))
                (String (digit (n / 10)) (String (digit n) ""))).
Proof.
  intros H. unfold decimal.
  destruct (fuel_S n ltac:(lia)) as (k & -> & Hk).
  rewrite digits_go_big by lia.
  destruct k as [|k]; [lia|].
  rewrite digits_go_big by (Z.div_mod_to_equations; lia).
  destruct k as [|k]; [lia|].
  rewrite Z.div_div by lia. change (10 * 10) with 100.
  rewrite digits_go_big by (Z.div_mod_to_equations; lia).
  rewrite Z.div_div by lia. change (100 * 10) with 1000.
  apply digits_go_small. Z.div_mod_to_equations; lia.
Qed.

Lemma pad_2 (n : Z) :
  0 <= n < 100 ->
  ToZeroPaddedDecimalString n 2 = String (digit (n / 10)) (String (digit n) "").
Proof.
  intros H. unfold ToZeroPaddedDecimalString.
  destruct (Z.lt_ge_cases n 10).
  - rewrite decimal_1 by lia. rewrite Z.div_small by lia. reflexivity.
  - rewrite decimal_2 by lia. reflexivity.
Qed.

Lemma pad_4 (n : Z) :
  0 <= n < 10000 ->
  ToZeroPaddedDecimalString n 4 =
    String (digit (n / 1000)) (String (digit (n / 100))
      (String (digit (n / 10)) (String (digit n) ""))).
Proof.
  intros H. unfold ToZeroPaddedDecimalString.
  destruct (Z.lt_ge_cases n 10); [|destruct (Z.lt_ge_cases n 100);
    [|destruct (Z.lt_ge_cases n 1000)]].
  - rewrite decimal_1 by lia. rewrite !Z.div_small by lia. reflexivity.
  - rewrite decimal_2 by lia. rewrite !(Z.div_small n 1000), !(Z.div_small n 100) by lia.
    reflexivity.
  - rewrite decimal_3 by lia. rewrite !(Z.div_small n 1000) by lia. reflexivity.
  - rewrite decimal_4 by lia. reflexivity.
Qed.

Lemma day_name_ok (i : Z) :
  0 <= i < 7 ->
  exists a b c, name_at day_names i = String a (String b (String c ""))
    /\ is_name ["Mon"; "Tue"; "Wed"; "Thu"; "Fri"; "Sat"; "Sun"] a b c = true.
Proof.
  intros H. assert (Hi : i = 0 \/ i = 1 \/ i = 2 \/ i = 3 \/ i = 4 \/ i = 5 \/ i = 6) by lia.
  destruct Hi as [->|[->|[->|[->|[->|[->| ->]]]]]]; do 3 eexists; split; reflexivity.
Qed.

Lemma month_name_ok (i : Z) :
  0 <= i <= 11 ->
  exists a b c, name_at month_names i = String a (String b (String c ""))
    /\ is_name ["Jan"; "Feb"; "Mar"; "Apr"; "May"; "Jun";
                "Jul"; "Aug"; "Sep"; "Oct"; "Nov"; "Dec"] a b c = true.
Proof.
  intros H.
  assert (Hi : i = 0 \/ i = 1 \/ i = 2 \/ i = 3 \/ i = 4 \/ i = 5 \/ i = 6
               \/ i = 7 \/ i = 8 \/ i = 9 \/ i = 10 \/ i = 11) by lia.
  destruct Hi as [->|[->|[->|[->|[->|[->|[->|[->|[->|[->|[->| ->]]]]]]]]]]];
    do 3 eexists; split; reflexivity.
Qed.

Lemma toUTCString_http (t : Z) :
  min_http_time <= t <= max_http_time ->
  IMF_fixdate (toUTCString (TimeValue t)) = true.
Proof.
  intros Ht. pose proof (YearFromTime_http t Ht) as Hy.
  unfold toUTCString, TimeString.
  destruct (Z.leb_spec 0 (YearFromTime t)); [|lia].
  rewrite Z.abs_eq by lia.
  rewrite (pad_4 (YearFromTime t)) by lia.
  rewrite (pad_2 (DateFromTime t)) by (pose proof (DateFromTime_bounds t); lia).
  rewrite (pad_2 (HourFromTime t)) by (unfold HourFromTime; Z.div_mod_to_equations; lia).
  rewrite (pad_2 (MinFromTime t)) by (unfold MinFromTime; Z.div_mod_to_equations; lia).
  rewrite (pad_2 (SecFromTime t)) by (unfold SecFromTime; Z.div_mod_to_equations; lia).
  destruct (day_name_ok (WeekDay t)) as (a & b & c & -> & Hw).
  { unfold WeekDay. Z.div_mod_to_equations; lia. }
  destruct (month_name_ok (MonthFromTime t) (MonthFromTime_bounds t))
    as (a' & b' & c' & -> & Hm).
  unfold IMF_fixdate. cbv [String.append list_ascii_of_string].
  rewrite Hw, Hm, !is_digit_digit. reflexivity.
Qed.

(** *** Reading the date back *)

Lemma digit_value_digit (n : Z) : digit_value (digit n) = n mod 10.
Proof.
  unfold digit, digit_value. pose proof (Z.mod_pos_bound n 10 ltac:(lia)) as Hk.
  rewrite nat_ascii_embedding by lia. lia.
Qed.

Lemma two_digits_pad (n : Z) :
  0 <= n < 100 -> two_digits (digit (n / 10)) (digit n) = n.
Proof.
  intros H. unfold two_digits. rewrite !digit_value_digit.
  Z.div_mod_to_equations; lia.
Qed.

Lemma four_digits_pad (n : Z) :
  0 <= n < 10000 ->
  four_digits (digit (n / 1000)) (digit (n / 100)) (digit (n / 10)) (digit n) = n.
Proof.
  intros H. unfold four_digits. rewrite !digit_value_digit.
  Z.div_mod_to_equations; lia.
Qed.

Lemma month_position (i : Z) :
  0 <= i <= 11 -> position (name_at month_names i) month_names = i.
Proof.
  intros H.
  assert (Hi : i = 0 \/ i = 1 \/ i = 2 \/ i = 3 \/ i = 4 \/ i = 5 \/ i = 6
               \/ i = 7 \/ i = 8 \/ i = 9 \/ i = 10 \/ i = 11) by lia.
  destruct Hi as [->|[->|[->|[->|[->|[->|[->|[->|[->|[->|[->| ->]]]]]]]]]]];
    reflexivity.
Qed.

(** The day of the calendar [toUTCString] writes is the day of the time
    value. *)
Lemma days_from_epoch_Day (t : Z) :
  days_from_epoch (YearFromTime t) (MonthFromTime t) (DateFromTime t) = Day t.
Proof.
  pose proof (DayWithinYear_bounds t) as Hd.
  unfold days_from_epoch, DateFromTime, MonthFromTime, InLeapYear, DayWithinYear in *.
  destruct (Z.eqb_spec (DaysInYear (YearFromTime t)) 366);
  repeat match goal with |- context [if ?a <? ?b then _ else _] => destruct (Z.ltb_spec a b) end;
  simpl; lia.
Qed.

Lemma seconds_of_day (t : Z) :
  Day t * 86400 + HourFromTime t * 3600 + MinFromTime t * 60 + SecFromTime t = t / 1000.
Proof.
  unfold Day, HourFromTime, MinFromTime, SecFromTime,
    msPerDay, msPerHour, msPerMinute, msPerSecond.
  change 86400000 with (1000 * 86400). change 3600000 with (1000 * 3600).
  change 60000 with (1000 * 60).
  rewrite <- !Z.div_div by lia.
  generalize (t / 1000). intros q. Z.div_mod_to_equations; lia.
Qed.

(** Read back, the text [toUTCString] writes for a date of the years 0000
    to 9999 names the second of the date. *)
Lemma toUTCString_seconds_back (t : Z) :
  min_http_time <= t <= max_http_time ->
  HTTP_date_seconds (toUTCString (TimeValue t)) = Some (t / 1000).
Proof.
  intros Ht. unfold HTTP_date_seconds.
  rewrite (toUTCString_http t Ht).
  pose proof (YearFromTime_http t Ht) as Hy.
  pose proof (DateFromTime_bounds t) as Hd.
  pose proof (MonthFromTime_bounds t) as Hm.
  assert (Hh : 0 <= HourFromTime t < 100) by (unfold HourFromTime; Z.div_mod_to_equations; lia).
  assert (Hn : 0 <= MinFromTime t < 100) by (unfold MinFromTime; Z.div_mod_to_equations; lia).
  assert (Hs : 0 <= SecFromTime t < 100) by (unfold SecFromTime; Z.div_mod_to_equations; lia).
  unfold toUTCString, TimeString.
  destruct (Z.leb_spec 0 (YearFromTime t)); [|lia].
  rewrite Z.abs_eq by lia.
  rewrite (pad_4 (YearFromTime t)) by lia.
  rewrite !pad_2 by lia.
  pose proof (month_position (MonthFromTime t) Hm) as Hpos.
  destruct (day_name_ok (WeekDay t)) as (a & b & c & Hw & _).
  { unfold WeekDay. Z.div_mod_to_equations; lia. }
  destruct (month_name_ok (MonthFromTime t) Hm) as (a' & b' & c' & Hmn & _).
  rewrite Hmn in Hpos. rewrite Hw, Hmn.
  cbv [String.append list_ascii_of_string].
  rewrite Hpos, four_digits_pad, !two_digits_pad, days_from_epoch_Day by lia.
  fold (WeekDay t). rewrite Hw, String.eqb_refl.
  now rewrite seconds_of_day.
Qed.

(** *** The dates of the other years *)

Lemma IMF_fixdate_length (s : string) :
  IMF_fixdate s = true -> String.length s = 29%nat.
Proof.
  unfold IMF_fixdate. intros H.
  rewrite <- (string_of_list_ascii_of_string s).
  destruct (list_ascii_of_string s) as [|? l]; [discriminate|].
  do 28 (destruct l as [|? l]; [discriminate|]).
  destruct l; [reflexivity | discriminate].
Qed.

Lemma length_append (a b : string) :
  String.length (a +:+ b) = (String.length a + String.length b)%nat.
Proof.
  induction a as [|c a IH]; [reflexivity|].
  rewrite append_cons. simpl. now rewrite IH.
Qed.

Lemma length_zeros (k : nat) : String.length (zeros k) = k.
Proof. induction k; simpl; auto. Qed.

Lemma length_pad (n : Z) (k : nat) :
  (k <= String.length (ToZeroPaddedDecimalString n k))%nat
  /\ (String.length (decimal n) <= String.length (ToZeroPaddedDecimalString n k))%nat.
Proof.
  unfold ToZeroPaddedDecimalString. rewrite length_append, length_zeros. lia.
Qed.

Lemma length_digits_go (k : nat) (n : Z) (acc : string) :
  (String.length acc <= String.length (digits_go k n acc))%nat.
Proof.
  revert n acc. induction k as [|k IH]; intros n acc; simpl; [lia|].
  destruct (n <? 10); simpl; [lia|].
  etransitivity; [|apply IH]. simpl. lia.
Qed.

Lemma length_digits_go_S (k : nat) (n : Z) (acc : string) :
  (S (String.length acc) <= String.length (digits_go (S k) n acc))%nat.
Proof.
  simpl. destruct (n <? 10); simpl; [lia|].
  etransitivity; [|apply length_digits_go]. simpl. lia.
Qed.

Lemma length_decimal_5 (n : Z) : 10000 <= n -> (5 <= String.length (decimal n))%nat.
Proof.
  intros H. unfold decimal.
  destruct (fuel_S n ltac:(lia)) as (k & -> & Hk).
  rewrite digits_go_big by lia.
  destruct k as [|k]; [lia|].
  rewrite digits_go_big by (Z.div_mod_to_equations; lia).
  destruct k as [|k]; [lia|].
  rewrite digits_go_big by (Z.div_mod_to_equations; lia).
  destruct k as [|k]; [lia|].
  rewrite digits_go_big by (Z.div_mod_to_equations; lia).
  destruct k as [|k]; [lia|].
  etransitivity; [|apply length_digits_go_S]. simpl. lia.
Qed.

Lemma YearFromTime_outside (t : Z) :
  (t < min_http_time -> YearFromTime t < 0)
  /\ (max_http_time < t -> 10000 <= YearFromTime t).
Proof.
  unfold min_http_time, max_http_time. split; intros Ht.
  - destruct (Z.lt_ge_cases (YearFromTime t) 0); [assumption|].
    assert (H' : 0 <= YearFromTime t) by lia.
    apply YearFromTime_largest in H'. revert H'.
    unfold Day, msPerDay. change (DayFromYear 0) with (-719528).
    Z.div_mod_to_equations. lia.
  - apply YearFromTime_largest.
    unfold Day, msPerDay. change (DayFromYear 10000) with 2932897.
    Z.div_mod_to_equations. lia.
Qed.

(** Only the dates of the years 0000 to 9999 are written as an
    IMF-fixdate. *)
Lemma toUTCString_http_only (d : Date) :
  IMF_fixdate (toUTCString d) = true ->
  exists t, d = TimeValue t /\ min_http_time <= t <= max_http_time.
Proof.
  destruct d as [|t]; [discriminate|]. intros H. exists t. split; [reflexivity|].
  apply IMF_fixdate_length in H. revert H.
  unfold toUTCString, TimeString.
  rewrite !length_append.
  destruct (day_name_ok (WeekDay t)) as (a & b & c & -> & _).
  { unfold WeekDay. Z.div_mod_to_equations; lia. }
  destruct (month_name_ok (MonthFromTime t) (MonthFromTime_bounds t))
    as (a' & b' & c' & -> & _).
  pose proof (length_pad (DateFromTime t) 2) as [Hd _].
  pose proof (length_pad (HourFromTime t) 2) as [Hh _].
  pose proof (length_pad (MinFromTime t) 2) as [Hn _].
  pose proof (length_pad (SecFromTime t) 2) as [Hs _].
  pose proof (length_pad (Z.abs (YearFromTime t)) 4) as [Hy4 Hyd].
  pose proof (YearFromTime_outside t) as [Hlo Hhi].
  destruct (Z.leb_spec 0 (YearFromTime t)); simpl String.length; intros Hlen.
  - split; [lia|]. destruct (Z.le_gt_cases t max_http_time); [assumption|].
    pose proof (length_decimal_5 (Z.abs (YearFromTime t)) ltac:(lia)). lia.
  - lia.
Qed.

End DateFacts.

(** ** Cache support *)

Lemma checkForCache_serve (rq : Request) (sum : string) :
  _checkForCacheFromRequest rq sum = true <-> serve_condition sum (headers rq).
Proof.
  unfold _checkForCacheFromRequest, serve_condition.
  destruct (headers rq !! "cache-control") as [v|] eqn:Hcc; [|tauto].
  destruct (JS.truthy_str v) eqn:Hv.
  - apply truthy_str_true in Hv.
    match goal with |- (if ?b then true else false) = true <-> _ =>
      assert (Hb : (if b then true else false) = b) by (destruct b; reflexivity);
      rewrite Hb; clear Hb end.
    rewrite !orb_true_iff, !indexOf_In.
    split.
    + intros [[H|H]|H].
      * right; left. eauto.
      * right; left. eauto.
      * right; right.
        destruct (headers rq !! "if-none-match") as [etag|]; [|discriminate].
        apply andb_true_iff in H as [H1 H2].
        apply truthy_str_true in H1. apply negb_true_iff, String.eqb_neq in H2.
        eauto.
    + intros [[H|H]|[(w & Hw & H)|(etag & He & H1 & H2)]]; try congruence.
      * injection Hw as <-. tauto.
      * right. rewrite He. apply andb_true_iff. split.
        -- now apply truthy_str_true.
        -- now apply negb_true_iff, String.eqb_neq.
  - apply truthy_str_false in Hv. subst v. tauto.
Qed.

(** Between a node request and an Express response that takes every
    header, [setCacheControl] is the two guards, the five headers, and
    the Content-Type header to serve. *)
Lemma setCacheControl_eq (metadata : option FileMetadata) (request : option Request)
    (response : option Response) :
  setCacheControl metadata request response =
  match metadata, request, response with
  | Some m, Some rq, Some rs =>
      match md5 m, uploadDate m, contentType m with
      | Some sum, Some date, Some ctype =>
          if negb (JS.truthy_str sum) || negb (JS.truthy_str ctype)
          then (Throw "metadata should have md5, uploadDate and contentType members",
                response)
          else
            let rs :=
              (rs ++ [("Pragma", "public");
                      ("Accept-Ranges", "bytes");
                      ("Cache-Control", "public, max-age=0");
                      ("ETag", sum);
                      ("Last-Modified", JSDate.toUTCString (JSDate.new_Date date))])%list in
            if _checkForCacheFromRequest rq sum
            then (Return 200, Some (setHeader "Content-Type" ctype rs))
            else (Return 304, Some rs)
      | _, _, _ =>
          (Throw "metadata should have md5, uploadDate and contentType members",
           response)
      end
  | _, _, _ => (Throw "Grid.setCacheControl(metadata, request, response)", response)
  end.
Proof.
  unfold setCacheControl, setCacheControl_on.
  destruct metadata as [m|], request as [[h]|], response as [rs|]; try reflexivity.
  simpl.
  destruct (md5 m) as [sum|], (uploadDate m) as [date|], (contentType m) as [ctype|];
    try reflexivity.
  destruct (negb (JS.truthy_str sum) || negb (JS.truthy_str ctype)); [reflexivity|].
  unfold _checkForCacheFromRequest_on, node_setHeader, express, setHeader. simpl.
  destruct (_checkForCacheFromRequest {| headers := h |} sum); simpl;
    rewrite <- ?app_assoc; reflexivity.
Qed.

Lemma setCacheControl_cacheable (m : FileMetadata) (rq : Request) (rs : Response)
    (sum : string) (date : JSDate.Date) (ctype : string) :
  cacheable m sum date ctype ->
  setCacheControl (Some m) (Some rq) (Some rs) =
    if _checkForCacheFromRequest rq sum
    then (Return 200, Some (rs ++ cache_headers sum date ++ [("Content-Type", ctype)])%list)
    else (Return 304, Some (rs ++ cache_headers sum date)%list).
Proof.
  intros (Hs & Hd & Hc & Hs' & Hc'). rewrite setCacheControl_eq.
  rewrite Hs, Hd, Hc.
  apply truthy_str_true in Hs', Hc'. rewrite Hs', Hc'. simpl.
  unfold setHeader, cache_headers, JSDate.new_Date.
  destruct (_checkForCacheFromRequest rq sum); [|reflexivity].
  now rewrite <- app_assoc.
Qed.

(** C1, as amended.  For metadata that passes the guard, with checksum
    [sum], the status is 200 (serve) exactly when the cache-control
    header is missing or empty, or one of the pieces between its ", "
    separators is no-cache or private, or the if-none-match header is
    there, not empty, and differs from [sum]; in all other cases the
    status is 304 (not modified). *)
Theorem setCacheControl_disposition (m : FileMetadata) (rq : Request) (rs : Response)
    (sum : string) (date : JSDate.Date) (ctype : string) :
  cacheable m sum date ctype ->
  (fst (setCacheControl (Some m) (Some rq) (Some rs)) = Return 200
     <-> serve_condition sum (headers rq))
  /\ (fst (setCacheControl (Some m) (Some rq) (Some rs)) = Return 304
     <-> ~ serve_condition sum (headers rq)).
Proof.
  intros Hm. rewrite (setCacheControl_cacheable m rq rs sum date ctype Hm).
  rewrite <- checkForCache_serve.
  destruct (_checkForCacheFromRequest rq sum); simpl; split; split;
    intros; try congruence; try reflexivity; exfalso; auto.
Qed.

(** The theorem at a request that carries cache-control: max-age=0. *)
Lemma setCacheControl_disposition_witness :
  cacheable sample_metadata "abc123" sample_date "text/plain"
  /\ (fst (setCacheControl (Some sample_metadata)
             (Some (request_of [("cache-control", "max-age=0")])) (Some []))
        = Return 200
      <-> serve_condition "abc123"
            (headers (request_of [("cache-control", "max-age=0")])))
  /\ (fst (setCacheControl (Some sample_metadata)
             (Some (request_of [("cache-control", "max-age=0")])) (Some []))
        = Return 304
      <-> ~ serve_condition "abc123"
              (headers (request_of [("cache-control", "max-age=0")]))).
Proof.
  assert (H : cacheable sample_metadata "abc123" sample_date "text/plain")
    by (unfold cacheable; repeat split; discriminate).
  split; [exact H|].
  exact (setCacheControl_disposition sample_metadata
           (request_of [("cache-control", "max-age=0")]) [] "abc123" sample_date
           "text/plain" H).
Defined.

(** C1 as the specification words it fails on three requests:
    cache-control: max-age=0,no-cache contains no-cache and gets 304;
    an empty cache-control header is present, contains neither
    directive, and gets 200; an empty if-none-match header is present
    and differs from the checksum, and gets 304. *)
Lemma cache_control_counterexample :
  (Claimed.serve "abc123"
     (headers (request_of [("cache-control", "max-age=0,no-cache")]))
   /\ fst (setCacheControl (Some sample_metadata)
             (Some (request_of [("cache-control", "max-age=0,no-cache")])) (Some []))
      = Return 304)
  /\ (~ Claimed.serve "abc123" (headers (request_of [("cache-control", "")]))
      /\ fst (setCacheControl (Some sample_metadata)
                (Some (request_of [("cache-control", "")])) (Some []))
         = Return 200)
  /\ (Claimed.serve "abc123"
        (headers (request_of [("cache-control", "max-age=0"); ("if-none-match", "")]))
      /\ fst (setCacheControl (Some sample_metadata)
                (Some (request_of [("cache-control", "max-age=0");
                                   ("if-none-match", "")])) (Some []))
         = Return 304).
Proof.
  split; [|split].
  - split; [|reflexivity].
    right; left. exists "max-age=0,no-cache". split; [reflexivity|]. left. reflexivity.
  - split; [|reflexivity].
    intros [H|[(v & Hv & H)|(etag & He & _)]].
    + discriminate H.
    + injection Hv as <-. destruct H; discriminate.
    + discriminate He.
  - split; [|reflexivity].
    right; right. exists "". split; [reflexivity | discriminate].
Qed.

(** C2, as amended.  A file with checksum abc123: a request carrying
    if-none-match: abc123 and no cache-control header is served with
    status 200 (with cache-control: max-age=0 beside it, the same
    request gets status 304); a request carrying cache-control: no-cache
    is served with status 200 whatever its if-none-match header. *)
Theorem setCacheControl_abc123 (m : FileMetadata) (rq : Request) (rs : Response)
    (date : JSDate.Date) (ctype : string) :
  cacheable m "abc123" date ctype ->
  let status := fst (setCacheControl (Some m) (Some rq) (Some rs)) in
  (headers rq !! "cache-control" = None -> status = Return 200)
  /\ (headers rq !! "cache-control" = Some "max-age=0" ->
      headers rq !! "if-none-match" = Some "abc123" -> status = Return 304)
  /\ (headers rq !! "cache-control" = Some "no-cache" -> status = Return 200).
Proof.
  intros Hm status. subst status.
  rewrite (setCacheControl_cacheable m rq rs _ date ctype Hm).
  unfold _checkForCacheFromRequest.
  split; [|split].
  - intros ->. reflexivity.
  - intros -> ->. reflexivity.
  - intros ->. reflexivity.
Qed.

(** The theorem at a request that carries if-none-match: abc123 alone. *)
Lemma setCacheControl_abc123_witness :
  cacheable sample_metadata "abc123" sample_date "text/plain"
  /\ fst (setCacheControl (Some sample_metadata)
            (Some (request_of [("if-none-match", "abc123")])) (Some []))
     = Return 200.
Proof.
  assert (H : cacheable sample_metadata "abc123" sample_date "text/plain")
    by (unfold cacheable; repeat split; discriminate).
  split; [exact H|].
  exact (proj1 (setCacheControl_abc123 sample_metadata
                  (request_of [("if-none-match", "abc123")]) [] sample_date
                  "text/plain" H) eq_refl).
Defined.

(** C2 as the specification words it fails: with checksum abc123, the
    request carrying if-none-match: abc123 and no cache-control header
    is answered with status 200, not 304. *)
Lemma matching_etag_counterexample :
  headers (request_of [("if-none-match", "abc123")]) !! "cache-control" = None
  /\ headers (request_of [("if-none-match", "abc123")]) !! "if-none-match"
     = Some "abc123"
  /\ fst (setCacheControl (Some sample_metadata)
            (Some (request_of [("if-none-match", "abc123")])) (Some []))
     = Return 200
  /\ fst (setCacheControl (Some sample_metadata)
            (Some (request_of [("if-none-match", "abc123")])) (Some []))
     <> Return 304.
Proof. repeat split; try reflexivity. discriminate. Qed.

(** C3, as amended.  For every input that passes the guard, the response
    receives Pragma: public, Accept-Ranges: bytes, Cache-Control: public,
    max-age=0, ETag = md5 and Last-Modified = toUTCString(uploadDate)
    under both statuses, followed by Content-Type = contentType when the
    status is 200 and by nothing when it is 304.  When uploadDate is a
    date of the years 0000 to 9999 the Last-Modified value is an
    IMF-fixdate, the date format of HTTP, and read back it names the
    second of uploadDate; for every other uploadDate (an invalid Date, a
    date of another year) it is not an IMF-fixdate. *)
Theorem setCacheControl_headers (m : FileMetadata) (rq : Request) (rs : Response)
    (sum : string) (date : JSDate.Date) (ctype : string) :
  cacheable m sum date ctype ->
  (setCacheControl (Some m) (Some rq) (Some rs) =
     (Return 200,
      Some (rs ++ [("Pragma", "public"); ("Accept-Ranges", "bytes");
                   ("Cache-Control", "public, max-age=0"); ("ETag", sum);
                   ("Last-Modified", JSDate.toUTCString date);
                   ("Content-Type", ctype)])%list)
   \/ setCacheControl (Some m) (Some rq) (Some rs) =
     (Return 304,
      Some (rs ++ [("Pragma", "public"); ("Accept-Ranges", "bytes");
                   ("Cache-Control", "public, max-age=0"); ("ETag", sum);
                   ("Last-Modified", JSDate.toUTCString date)])%list))
  /\ (forall t, date = JSDate.TimeValue t ->
        JSDate.min_http_time <= t <= JSDate.max_http_time ->
        JSDate.IMF_fixdate (JSDate.toUTCString date) = true
        /\ JSDate.HTTP_date_seconds (JSDate.toUTCString date) = Some (t / 1000))
  /\ (JSDate.IMF_fixdate (JSDate.toUTCString date) = true ->
        exists t, date = JSDate.TimeValue t
                  /\ JSDate.min_http_time <= t <= JSDate.max_http_time).
Proof.
  intros Hm. split; [|split].
  - rewrite (setCacheControl_cacheable m rq rs sum date ctype Hm).
    destruct (_checkForCacheFromRequest rq sum); [left | right]; reflexivity.
  - intros t -> Ht. split.
    + now apply DateFacts.toUTCString_http.
    + now apply DateFacts.toUTCString_seconds_back.
  - apply DateFacts.toUTCString_http_only.
Qed.

(** The theorem at a request without headers, and the Last-Modified
    value it writes. *)
Lemma setCacheControl_headers_witness :
  cacheable sample_metadata "abc123" sample_date "text/plain"
  /\ JSDate.toUTCString sample_date = "Mon, 02 Nov 2026 17:02:00 GMT"
  /\ JSDate.IMF_fixdate (JSDate.toUTCString sample_date) = true
  /\ JSDate.HTTP_date_seconds (JSDate.toUTCString sample_date) = Some (1793638920000 / 1000).
Proof.
  assert (H : cacheable sample_metadata "abc123" sample_date "text/plain")
    by (unfold cacheable; repeat split; discriminate).
  split; [exact H|]. split; [reflexivity|].
  apply (setCacheControl_headers sample_metadata (request_of []) [] "abc123"
           sample_date "text/plain" H) with (t := 1793638920000).
  - reflexivity.
  - unfold JSDate.min_http_time, JSDate.max_http_time. lia.
Defined.

(** C3 as the specification words it fails: metadata whose uploadDate is
    an invalid Date, or a date of the year 10000, passes the guard, and
    the Last-Modified header written is not in the date format of
    HTTP. *)
Lemma last_modified_counterexample :
  cacheable undated_metadata "abc123" JSDate.InvalidDate "text/plain"
  /\ setCacheControl (Some undated_metadata) (Some (request_of [])) (Some [])
     = (Return 200,
        Some [("Pragma", "public"); ("Accept-Ranges", "bytes");
              ("Cache-Control", "public, max-age=0"); ("ETag", "abc123");
              ("Last-Modified", "Invalid Date"); ("Content-Type", "text/plain")])
  /\ JSDate.IMF_fixdate "Invalid Date" = false
  /\ setCacheControl (Some far_metadata) (Some (request_of [])) (Some [])
     = (Return 200,
        Some [("Pragma", "public"); ("Accept-Ranges", "bytes");
              ("Cache-Control", "public, max-age=0"); ("ETag", "abc123");
              ("Last-Modified", "Sat, 01 Jan 10000 00:00:00 GMT");
              ("Content-Type", "text/plain")])
  /\ JSDate.IMF_fixdate "Sat, 01 Jan 10000 00:00:00 GMT" = false.
Proof.
  split; [unfold cacheable; repeat split; discriminate|].
  vm_compute. repeat split; reflexivity.
Qed.


(** *** Any request and response objects *)










(** ** The handle and its default collection *)

Lemma Grid_new_consistent gm d m g : Grid_new gm d m = Return g -> consistent g.
Proof.
  unfold Grid_new. intros H.
  destruct (match m with Some _ => m | None => gm end) as [mg|]; [|discriminate].
  destruct d as [dbh|]; [|discriminate].
  injection H as <-. split; simpl; [discriminate|].
  destruct (GridStore mg) as [gs|]; [|discriminate].
  intros E. eauto.
Qed.

Lemma collection_falsy (name : option string) (g : Grid) :
  JS.truthy_prop name = false -> collection name g = collection None g.
Proof. intros H. unfold collection. rewrite H. reflexivity. Qed.

Lemma collection_None (g : Grid) :
  consistent g ->
  collection None g = (Return (default_of g), set_col g (curCol g) (default_of g)).
Proof.
  intros [Hc Hd]. unfold collection. simpl.
  destruct (JS.truthy_str (curCol g)) eqn:Hcur; [reflexivity|].
  apply truthy_str_false in Hcur.
  destruct (Hd Hcur) as (gs & -> & ->). unfold default_of. now rewrite Hcur.
Qed.

Lemma collection_named (name : string) (g : Grid) :
  name <> "" ->
  collection (Some name) g =
    (Return (Coll (name +:+ ".files")), set_col g name (Coll (name +:+ ".files"))).
Proof.
  intros H. unfold collection. simpl.
  apply truthy_str_true in H. now rewrite H.
Qed.

Lemma files_default (g : Grid) :
  consistent g ->
  fst (files g) = Return (default_of g)
  /\ (snd (files g) = g \/ snd (files g) = set_col g (curCol g) (default_of g)).
Proof.
  intros Hg. unfold files. destruct (_col g) as [c|] eqn:Hcol.
  - simpl. destruct Hg as [Hc _]. rewrite (Hc c Hcol). auto.
  - rewrite collection_None by assumption. auto.
Qed.

Lemma set_col_same (g : Grid) :
  consistent g ->
  consistent (set_col g (curCol g) (default_of g))
  /\ curCol (set_col g (curCol g) (default_of g)) = curCol g.
Proof.
  intros [Hc Hd]. split; [split|]; simpl; auto.
  now intros c [= <-].
Qed.

Lemma pick_collection_state (g : Grid) (options : Options) :
  consistent g ->
  snd (pick_collection g options) = g
  \/ snd (pick_collection g options) = set_col g (curCol g) (default_of g).
Proof.
  intros Hg. destruct (files_default g Hg) as [Hf Hs].
  unfold pick_collection.
  destruct (files g) as [[c|e] g'] eqn:E; simpl in *;
    destruct (root options) as [r|];
    try destruct (JS.truthy_str r && negb (String.eqb r (curCol g)))%bool;
    simpl; auto.
Qed.

(** The operations other than [collection(name)] with a name keep the
    handle consistent and its default collection in place. *)
Lemma step_frame (g : Grid) (o : op) :
  consistent g -> renames o = false ->
  consistent (step g o) /\ curCol (step g o) = curCol g.
Proof.
  intros Hg Ho.
  assert (Hsame : forall g', g' = g \/ g' = set_col g (curCol g) (default_of g) ->
                    consistent g' /\ curCol g' = curCol g).
  { intros g' [->| ->]; [auto | now apply set_col_same]. }
  destruct o; simpl in *; auto.
  - apply Hsame, files_default, Hg.
  - rewrite collection_falsy by assumption.
    rewrite collection_None by assumption. simpl. now apply set_col_same.
  - apply Hsame. unfold findOne. destruct callback; simpl; auto.
    pose proof (pick_collection_state g options Hg) as Hp.
    destruct (pick_collection g options) as [[[c|]|e] g']; simpl in *; auto.
    destruct (db_find (db g') c (build_query g options)); simpl; auto.
  - apply Hsame. unfold find. destruct callback; simpl; auto.
    pose proof (pick_collection_state g options Hg) as Hp.
    destruct (pick_collection g options) as [[[c|]|e] g']; simpl in *; auto.
    destruct (db_find (db g') c (build_query g options)); simpl; auto.
Qed.

Lemma run_frame (ops : list op) (g : Grid) :
  consistent g -> forallb (fun o => negb (renames o)) ops = true ->
  consistent (run g ops) /\ curCol (run g ops) = curCol g.
Proof.
  revert g. induction ops as [|o ops IH]; intros g Hg Hops; simpl in *; auto.
  apply andb_true_iff in Hops as [Ho Hops]. apply negb_true_iff in Ho.
  destruct (step_frame g o Hg Ho) as [Hg' Hcur].
  destruct (IH (step g o) Hg' Hops) as [H1 H2]. split; [assumption | congruence].
Qed.

Lemma step_consistent (g : Grid) (o : op) : consistent g -> consistent (step g o).
Proof.
  intros Hg. destruct (renames o) eqn:Ho; [|now apply step_frame].
  destruct o; try discriminate. simpl in *.
  destruct name as [name|]; [|discriminate].
  apply truthy_str_true in Ho. rewrite collection_named by assumption. simpl.
  split; simpl; [now intros c [= <-] | contradiction].
Qed.

Lemma run_consistent (ops : list op) (g : Grid) : consistent g -> consistent (run g ops).
Proof.
  revert g. induction ops as [|o ops IH]; intros g Hg; simpl; auto.
  apply IH, step_consistent, Hg.
Qed.

Lemma step_db_mongo (g : Grid) (o : op) : db (step g o) = db g /\ mongo (step g o) = mongo g.
Proof.
  assert (Hc : forall name, db (snd (collection name g)) = db g
                            /\ mongo (snd (collection name g)) = mongo g).
  { intros name. unfold collection.
    destruct (JS.truthy_prop name); simpl; auto.
    destruct (JS.truthy_str (curCol g)); simpl; auto.
    destruct (GridStore (mongo g)); simpl; auto. }
  assert (Hf : db (snd (files g)) = db g /\ mongo (snd (files g)) = mongo g).
  { unfold files. destruct (_col g); simpl; auto. }
  assert (Hp : forall options, db (snd (pick_collection g options)) = db g
                               /\ mongo (snd (pick_collection g options)) = mongo g).
  { intros options. unfold pick_collection.
    destruct (root options) as [r|];
      try destruct (JS.truthy_str r && negb (String.eqb r (curCol g)))%bool;
      simpl; auto; destruct (files g) as [[c|e] g']; simpl in *; auto. }
  destruct o; simpl; auto.
  - unfold findOne. destruct callback; simpl; auto.
    specialize (Hp options).
    destruct (pick_collection g options) as [[[c|]|e] g']; simpl in *; auto.
    destruct (db_find (db g') c (build_query g options)); simpl; auto.
  - unfold find. destruct callback; simpl; auto.
    specialize (Hp options).
    destruct (pick_collection g options) as [[[c|]|e] g']; simpl in *; auto.
    destruct (db_find (db g') c (build_query g options)); simpl; auto.
Qed.

Lemma run_db_mongo (ops : list op) (g : Grid) :
  db (run g ops) = db g /\ mongo (run g ops) = mongo g.
Proof.
  revert g. induction ops as [|o ops IH]; intros g; simpl; auto.
  destruct (IH (step g o)) as [-> ->]. apply step_db_mongo.
Qed.

(** What a query is sent to depends on the handle through its root and
    its driver only. *)
Lemma pick_collection_same (g g' : Grid) (options : Options) :
  consistent g -> consistent g' -> curCol g' = curCol g -> mongo g' = mongo g ->
  fst (pick_collection g' options) = fst (pick_collection g options).
Proof.
  intros Hg Hg' Hcur Hm.
  destruct (files_default g Hg) as [Hf _], (files_default g' Hg') as [Hf' _].
  unfold default_of in *. rewrite Hcur in Hf'.
  unfold pick_collection. rewrite Hcur, Hm.
  destruct (root options) as [r|];
    try destruct (JS.truthy_str r && negb (String.eqb r (curCol g)))%bool;
    simpl; auto;
    destruct (files g) as [[c|e] g1], (files g') as [[c'|e'] g1'];
    simpl in *; congruence.
Qed.

(** C8, as amended.  On every handle reached from the constructor by a
    sequence of operations: a sequence of the operations other than
    [collection] with a name that is not empty ([files], [collection]
    with no name, [remove], [exist], [findOne], [find],
    [tryParseObjectId], [setCacheControl]) leaves the root, the default
    collection and the collection every query is sent to as they were;
    [collection(name)] with a name that is not empty makes name the root
    and name.files the default collection, to which the queries that
    name no root are sent, for as long as only such operations
    follow. *)
Theorem default_collection_frame (gm : option Mongo) (d : option Db) (m : option Mongo)
    (g0 : Grid) (before after : list op) :
  Grid_new gm d m = Return g0 ->
  forallb (fun o => negb (renames o)) after = true ->
  (curCol (run (run g0 before) after) = curCol (run g0 before)
   /\ fst (files (run (run g0 before) after)) = fst (files (run g0 before))
   /\ (forall options,
         fst (pick_collection (run (run g0 before) after) options)
         = fst (pick_collection (run g0 before) options)))
  /\ (forall name, name <> "" ->
        curCol (run (step (run g0 before) (OpCollection (Some name))) after) = name
        /\ fst (files (run (step (run g0 before) (OpCollection (Some name))) after))
           = Return (Coll (name +:+ ".files"))
        /\ (forall options, root options = None ->
              fst (pick_collection
                     (run (step (run g0 before) (OpCollection (Some name))) after)
                     options)
              = Return (Some (Coll (name +:+ ".files"))))).
Proof.
  intros Hnew Hafter.
  pose proof (run_consistent before g0 (Grid_new_consistent _ _ _ _ Hnew)) as Hg.
  set (g := run g0 before) in *.
  assert (Hframe : forall h, consistent h ->
            consistent (run h after) /\ curCol (run h after) = curCol h
            /\ fst (files (run h after)) = fst (files h)
            /\ forall options, fst (pick_collection (run h after) options)
                               = fst (pick_collection h options)).
  { intros h Hh. destruct (run_frame after h Hh Hafter) as [Hh' Hcur].
    split; [assumption|]. split; [assumption|]. split.
    - destruct (files_default _ Hh') as [-> _], (files_default _ Hh) as [-> _].
      unfold default_of. now rewrite Hcur.
    - intros options. apply pick_collection_same; auto. apply run_db_mongo. }
  split.
  - destruct (Hframe g Hg) as (_ & H1 & H2 & H3). auto.
  - intros name Hname.
    set (h := step g (OpCollection (Some name))).
    assert (Hh : consistent h) by (apply step_consistent, Hg).
    assert (Hcur : curCol h = name).
    { subst h. simpl. now rewrite collection_named. }
    destruct (Hframe h Hh) as (Hh' & H1 & H2 & H3).
    destruct (files_default _ Hh) as [Hf _]. unfold default_of in Hf.
    rewrite Hcur in Hf.
    split; [congruence|]. split; [congruence|].
    intros options Hroot. rewrite H3. unfold pick_collection. rewrite Hroot.
    destruct (files h) as [[c|e] h']; simpl in *; congruence.
Qed.

(** The theorem at the sample handle, after the sample run of
    operations, followed by operations that give no root. *)
Lemma default_collection_frame_witness :
  Grid_new None (Some (mem_db sample_colls)) (Some native) = Return sample_grid
  /\ forallb (fun o => negb (renames o)) quiet_ops = true
  /\ curCol (run (run sample_grid sample_ops) quiet_ops)
     = curCol (run sample_grid sample_ops)
  /\ fst (files (run (run sample_grid sample_ops) quiet_ops))
     = fst (files (run sample_grid sample_ops)).
Proof.
  assert (H : Grid_new None (Some (mem_db sample_colls)) (Some native)
              = Return sample_grid) by reflexivity.
  assert (Hq : forallb (fun o => negb (renames o)) quiet_ops = true) by reflexivity.
  split; [exact H|]. split; [exact Hq|].
  destruct (proj1 (default_collection_frame None (Some (mem_db sample_colls))
                     (Some native) sample_grid sample_ops quiet_ops H Hq))
    as (H1 & H2 & _).
  split; [exact H1 | exact H2].
Defined.

(** C8 as the specification words it fails: [collection("other")] on a
    handle moves the queries that follow on that handle, and name no
    root, from fs.files to other.files. *)
Lemma collection_rename_counterexample :
  Grid_new None (Some (mem_db sample_colls)) (Some native) = Return sample_grid
  /\ fst (pick_collection sample_grid (by_filename "a.txt"))
     = Return (Some (Coll "fs.files"))
  /\ fst (pick_collection (step sample_grid (OpCollection (Some "other")))
            (by_filename "a.txt"))
     = Return (Some (Coll "other.files"))
  /\ curCol (step sample_grid (OpCollection (Some "other"))) <> curCol sample_grid.
Proof. repeat split; try reflexivity. discriminate. Qed.

(** C7.  On a handle the constructor returned, with a driver whose
    GridStore.DEFAULT_ROOT_COLLECTION is fs (or that has no GridStore),
    and as long as no root has been given with [collection(name)]: the
    root is fs, the default collection is fs.files, and a query whose
    options name no root goes to fs.files. *)
Theorem default_root_fs (gm : option Mongo) (d : option Db) (m : option Mongo)
    (g : Grid) (ops : list op) :
  Grid_new gm d m = Return g ->
  (forall gs, GridStore (mongo g) = Some gs -> DEFAULT_ROOT_COLLECTION gs = "fs") ->
  forallb (fun o => negb (renames o)) ops = true ->
  curCol (run g ops) = "fs"
  /\ fst (files (run g ops)) = Return (Coll "fs.files")
  /\ (forall options, root options = None ->
        fst (pick_collection (run g ops) options) = Return (Some (Coll "fs.files"))).
Proof.
  intros Hnew Hdrv Hops. pose proof (Grid_new_consistent _ _ _ _ Hnew) as Hg.
  assert (Hcur : curCol g = "fs").
  { unfold Grid_new in Hnew.
    destruct (match m with Some _ => m | None => gm end) as [mg|]; [|discriminate].
    destruct d as [dbh|]; [|discriminate].
    injection Hnew as <-. simpl in *.
    destruct (GridStore mg) as [gs|]; [now apply Hdrv | reflexivity]. }
  destruct (run_frame ops g Hg Hops) as [Hg' Hcur'].
  rewrite Hcur in Hcur'.
  destruct (files_default _ Hg') as [Hf _]. unfold default_of in Hf. rewrite Hcur' in Hf.
  change ("fs" +:+ ".files") with "fs.files" in Hf.
  repeat split; auto.
  intros options Hroot. unfold pick_collection. rewrite Hroot.
  destruct (files (run g ops)) as [[c|e] g']; simpl in *; congruence.
Qed.

(** The theorem at the sample handle, after a query. *)
Lemma default_root_fs_witness :
  Grid_new None (Some (mem_db sample_colls)) (Some native) = Return sample_grid
  /\ curCol (run sample_grid [OpFindOne (by_filename "a.txt") true]) = "fs"
  /\ fst (files (run sample_grid [OpFindOne (by_filename "a.txt") true]))
     = Return (Coll "fs.files")
  /\ (forall options, root options = None ->
        fst (pick_collection (run sample_grid [OpFindOne (by_filename "a.txt") true])
               options)
        = Return (Some (Coll "fs.files"))).
Proof.
  assert (H : Grid_new None (Some (mem_db sample_colls)) (Some native)
              = Return sample_grid) by reflexivity.
  split; [exact H|].
  apply (default_root_fs None (Some (mem_db sample_colls)) (Some native)
           sample_grid [OpFindOne (by_filename "a.txt") true] H).
  - intros gs Hgs. injection Hgs as <-. reflexivity.
  - reflexivity.
Defined.

(** ** Queries and identifiers *)

Lemma pick_collection_db (g : Grid) (options : Options) :
  db (snd (pick_collection g options)) = db g.
Proof.
  unfold pick_collection, files, collection.
  destruct (root options) as [r|];
    try destruct (JS.truthy_str r && negb (String.eqb r (curCol g)))%bool;
    simpl; auto;
    destruct (_col g); simpl; auto;
    destruct (JS.truthy_str (curCol g)); simpl; auto;
    destruct (GridStore (mongo g)); simpl; auto.
Qed.

Lemma findOne_cursor (g : Grid) (options : Options) (c : Collection) (docs : list object) :
  fst (pick_collection g options) = Return (Some c) ->
  db_find (db g) c (build_query g options) = FindCursor docs ->
  fst (findOne g options true) = Return (CallOk (head docs)).
Proof.
  intros Hp Hf. unfold findOne. simpl.
  pose proof (pick_collection_db g options) as Hdb.
  destruct (pick_collection g options) as [[[c'|]|e] g']; simpl in *; try discriminate.
  injection Hp as ->. rewrite Hdb, Hf. reflexivity.
Qed.

(** C5, as amended.  On a database that yields the matching documents
    of a collection in the order they are stored, [findOne] calls back
    with the first matching document in that order, whatever the
    upload dates. *)
Theorem findOne_first_match (g : Grid) (colls : gmap string (list object))
    (options : Options) (name : string) :
  db g = mem_db colls ->
  fst (pick_collection g options) = Return (Some (Coll name)) ->
  fst (findOne g options true) =
    Return (CallOk (head (List.filter (doc_matches (build_query g options))
                                      (default [] (colls !! name))))).
Proof.
  intros Hdb Hp. apply (findOne_cursor g options (Coll name)); [assumption|].
  rewrite Hdb. reflexivity.
Qed.

(** The theorem at the sample handle and the selection of a.txt. *)
Lemma findOne_first_match_witness :
  db sample_grid = mem_db sample_colls
  /\ fst (pick_collection sample_grid (by_filename "a.txt"))
     = Return (Some (Coll "fs.files"))
  /\ fst (findOne sample_grid (by_filename "a.txt") true)
     = Return (CallOk (head (List.filter
                (doc_matches (build_query sample_grid (by_filename "a.txt")))
                (default [] (sample_colls !! "fs.files"))))).
Proof.
  split; [reflexivity|]. split; [reflexivity|].
  apply (findOne_first_match sample_grid sample_colls (by_filename "a.txt") "fs.files");
    reflexivity.
Defined.

(** C5 as the specification words it fails: both uploads of a.txt match
    the selection, [findOne] calls back with the one stored first, and
    the other one is more recent. *)
Lemma find_newest_counterexample :
  List.filter (doc_matches (build_query sample_grid (by_filename "a.txt")))
              [older_upload; newer_upload] = [older_upload; newer_upload]
  /\ fst (findOne sample_grid (by_filename "a.txt") true)
     = Return (CallOk (Some older_upload))
  /\ ~ Claimed.most_recent_of older_upload [older_upload; newer_upload].
Proof.
  split; [vm_compute; reflexivity|]. split; [vm_compute; reflexivity|].
  intros [_ H].
  specialize (H newer_upload 2000 1000 ltac:(right; left; reflexivity)
                ltac:(reflexivity) ltac:(reflexivity)).
  lia.
Qed.

(** C6, as amended.  When no document of the collection matches the
    selection, [findOne] calls back with no error and a null document. *)
Theorem findOne_no_match (g : Grid) (colls : gmap string (list object))
    (options : Options) (name : string) :
  db g = mem_db colls ->
  fst (pick_collection g options) = Return (Some (Coll name)) ->
  (forall d, In d (default [] (colls !! name)) ->
     doc_matches (build_query g options) d = false) ->
  fst (findOne g options true) = Return (CallOk None).
Proof.
  intros Hdb Hp Hnone.
  apply (findOne_cursor g options (Coll name) []); [assumption|].
  rewrite Hdb. simpl. f_equal.
  induction (default [] (colls !! name)) as [|d l IH]; [reflexivity|].
  simpl. rewrite (Hnone d) by now left. apply IH.
  intros d' Hd'. apply Hnone. now right.
Qed.

(** The theorem at the sample handle and a name no upload has. *)
Lemma findOne_no_match_witness :
  db sample_grid = mem_db sample_colls
  /\ fst (pick_collection sample_grid (by_filename "b.txt"))
     = Return (Some (Coll "fs.files"))
  /\ fst (findOne sample_grid (by_filename "b.txt") true) = Return (CallOk None).
Proof.
  split; [reflexivity|]. split; [reflexivity|].
  apply (findOne_no_match sample_grid sample_colls (by_filename "b.txt") "fs.files");
    [reflexivity | reflexivity |].
  intros d Hd. change (default [] (sample_colls !! "fs.files"))
    with [older_upload; newer_upload] in Hd.
  destruct Hd as [<-|[<-|[]]]; vm_compute; reflexivity.
Defined.

(** C6 as the specification words it fails: no upload is named b.txt,
    and [findOne] calls back without an error, with a null document. *)
Lemma find_nothing_counterexample :
  List.filter (doc_matches (build_query sample_grid (by_filename "b.txt")))
              [older_upload; newer_upload] = []
  /\ fst (findOne sample_grid (by_filename "b.txt") true) = Return (CallOk None)
  /\ (forall err, fst (findOne sample_grid (by_filename "b.txt") true)
                  <> Return (CallErr err))
  /\ (forall msg, fst (findOne sample_grid (by_filename "b.txt") true) <> Throw msg).
Proof.
  split; [vm_compute; reflexivity|].
  assert (H : fst (findOne sample_grid (by_filename "b.txt") true)
              = Return (CallOk None)) by (vm_compute; reflexivity).
  rewrite H. repeat split; intros; discriminate.
Qed.

(** C10, as amended.  [tryParseObjectId] gives, for every string, the
    parsed ObjectID or false, and never throws; [remove] and [exist] use
    as key the parsed ObjectID when [_id] is truthy and parses, the raw
    [_id] when it is truthy and does not parse, and the filename when
    [_id] is missing or falsy (empty string, zero, null, false). *)
Theorem key_resolution (g : Grid) (options : Options) (gs : GridStoreT) :
  GridStore (mongo g) = Some gs ->
  (forall s, (exists o, tryParseObjectId g (VStr s) = VOid o
                        /\ ObjectID_new (mongo g) (VStr s) = Some o)
             \/ (tryParseObjectId g (VStr s) = VBool false
                 /\ ObjectID_new (mongo g) (VStr s) = None))
  /\ (forall v o, fields options !! "_id" = Some v -> truthy v = true ->
        ObjectID_new (mongo g) v = Some o ->
        remove g options = Return (Unlink (Some (VOid o)) options)
        /\ exist g options = Return (Exist (Some (VOid o)) (root options)))
  /\ (forall v, fields options !! "_id" = Some v -> truthy v = true ->
        ObjectID_new (mongo g) v = None ->
        remove g options = Return (Unlink (Some v) options)
        /\ exist g options = Return (Exist (Some v) (root options)))
  /\ (truthy_opt (fields options !! "_id") = false ->
        remove g options = Return (Unlink (fields options !! "filename") options)
        /\ exist g options = Return (Exist (fields options !! "filename") (root options))).
Proof.
  intros Hgs. unfold remove, exist, tryParseObjectId. rewrite Hgs.
  split; [|split; [|split]].
  - intros s. destruct (ObjectID_new (mongo g) (VStr s)) as [o|]; eauto.
  - intros v o -> Hv ->. rewrite Hv. simpl. auto.
  - intros v -> Hv ->. rewrite Hv. unfold or_else. simpl. rewrite Hv. simpl. auto.
  - intros H. destruct (fields options !! "_id") as [v|]; simpl in *.
    + rewrite H. simpl. auto.
    + auto.
Qed.

(** The theorem at the sample handle and an [_id] of 24 hexadecimal
    digits. *)
Lemma key_resolution_witness :
  GridStore (mongo sample_grid) = Some {| DEFAULT_ROOT_COLLECTION := "fs" |}
  /\ remove sample_grid hex_id
     = Return (Unlink (Some (VOid (Oid "507f1f77bcf86cd799439011"))) hex_id)
  /\ exist sample_grid hex_id
     = Return (Exist (Some (VOid (Oid "507f1f77bcf86cd799439011"))) None).
Proof.
  split; [reflexivity|].
  apply (key_resolution sample_grid hex_id {| DEFAULT_ROOT_COLLECTION := "fs" |}
           eq_refl) with (v := VStr "507f1f77bcf86cd799439011"); reflexivity.
Defined.

(** C10 as the specification words it fails: an [_id] that is the empty
    string is present and does not parse, and the key [remove] and
    [exist] use is the filename, not the raw [_id]. *)
Lemma empty_id_counterexample :
  fields empty_id !! "_id" = Some (VStr "")
  /\ tryParseObjectId sample_grid (VStr "") = VBool false
  /\ remove sample_grid empty_id = Return (Unlink (Some (VStr "a.txt")) empty_id)
  /\ exist sample_grid empty_id = Return (Exist (Some (VStr "a.txt")) None)
  /\ remove sample_grid empty_id <> Return (Unlink (Some (VStr "")) empty_id).
Proof. repeat split; try reflexivity. discriminate. Qed.

(** ** The round trip of the sessions *)

Module SessionFacts.
Import Sessions.

Section RoundTrip.
Context (D : DigestAlg) (f : string) (C : Z) (s0 : ChunkStore).
Hypothesis C_pos : 0 < C.

Lemma flush_written (rounds : nat) (B : bytes) (w : WriteSession.state D) (s : ChunkStore) :
  written D f C s0 B w s -> (List.length (WriteSession.buffer D w) <= rounds)%nat ->
  exists w' s', WriteSession.flush D rounds w s = (None, w', s')
    /\ written D f C s0 B w' s' /\ Z.of_nat (List.length (WriteSession.buffer D w')) < C.
Proof.
  revert w s. induction rounds as [|k IH]; intros w s Hw Hlen.
  - exists w, s. simpl. split; [reflexivity | split; [assumption | lia]].
  - destruct Hw as (Hst & Hf & Hc & Hn0 & HnB & Hbuf & Hbl & Htot & Hch & Hm & Hfail).
    assert (Hrem : Z.of_nat (List.length (WriteSession.buffer D w))
                   = Z.of_nat (List.length B) - WriteSession.nextSeq D w * C).
    { rewrite Hbuf at 1. rewrite length_drop. lia. }
    simpl. rewrite Hc, Hbl.
    destruct (Z.leb_spec C (Z.of_nat (List.length (WriteSession.buffer D w)))) as [Hge|Hlt].
    + unfold putChunk. rewrite Hfail.
      apply IH.
      * unfold written; simpl. rewrite Hf.
        repeat split; auto; try lia.
        -- rewrite Hbuf, drop_drop. f_equal. lia.
        -- rewrite length_drop. lia.
        -- intros i Hi. destruct (Z.eq_dec i (WriteSession.nextSeq D w)) as [->|Hne].
           ++ rewrite lookup_insert_eq. unfold chunk_at. now rewrite Hbuf.
           ++ rewrite lookup_insert_ne by congruence. apply Hch. lia.
      * simpl. rewrite length_drop. lia.
    + exists w, s. split; [reflexivity | split; [|lia]].
      unfold written. repeat split; auto.
Qed.

Lemma chunk_at_app (B b : bytes) (i : Z) :
  0 <= i -> (i + 1) * C <= Z.of_nat (List.length B) ->
  chunk_at C (B ++ b) i = chunk_at C B i.
Proof.
  intros Hi Hle. unfold chunk_at.
  rewrite drop_app_le by lia.
  rewrite take_app_le; [reflexivity|]. rewrite length_drop. lia.
Qed.

Lemma write_written (B b : bytes) (w : WriteSession.state D) (s : ChunkStore) :
  written D f C s0 B w s ->
  exists w' s', WriteSession.write D w s b = (None, w', s')
    /\ written D f C s0 (B ++ b) w' s' /\ Z.of_nat (List.length (WriteSession.buffer D w')) < C.
Proof.
  intros (Hst & Hf & Hc & Hn0 & HnB & Hbuf & Hbl & Htot & Hch & Hm & Hfail).
  unfold WriteSession.write. rewrite Hst.
  apply flush_written; [|simpl; lia].
  unfold written; simpl. rewrite length_app.
  repeat split; auto; try lia.
  - rewrite Hbuf. rewrite drop_app_le by lia. reflexivity.
  - rewrite length_app. lia.
  - intros i Hi. rewrite chunk_at_app by nia. now apply Hch.
Qed.

Lemma write_all_written (bs : list bytes) (B : bytes) (w : WriteSession.state D) (s : ChunkStore) :
  written D f C s0 B w s -> Z.of_nat (List.length (WriteSession.buffer D w)) < C ->
  exists w' s', WriteSession.write_all D w s bs = (None, w', s')
    /\ written D f C s0 (B ++ concat bs) w' s'
    /\ Z.of_nat (List.length (WriteSession.buffer D w')) < C.
Proof.
  revert B w s. induction bs as [|b bs IH]; intros B w s Hw Hlt; simpl.
  - exists w, s. rewrite app_nil_r. split; [reflexivity | split; assumption].
  - destruct (write_written B b w s Hw) as (w1 & s1 & -> & Hw1 & Hlt1).
    rewrite app_assoc. now apply IH.
Qed.

Lemma end_written (B : bytes) (w : WriteSession.state D) (s : ChunkStore) (now : Z) :
  written D f C s0 B w s -> Z.of_nat (List.length (WriteSession.buffer D w)) < C ->
  exists w' s' record, WriteSession.end_ D w s now = (None, w', s')
    /\ WriteSession.status D w' = WriteSession.Closed /\ stored f C s0 B record s'.
Proof.
  intros (Hst & Hf & Hc & Hn0 & HnB & Hbuf & Hbl & Htot & Hch & Hm & Hfail) Hlt.
  assert (Hrem : Z.of_nat (List.length (WriteSession.buffer D w))
                 = Z.of_nat (List.length B) - WriteSession.nextSeq D w * C).
  { rewrite Hbuf at 1. rewrite length_drop. lia. }
  unfold WriteSession.end_. rewrite Hst. simpl.
  destruct (WriteSession.buffer D w) as [|x rest] eqn:Hb.
  - unfold putMetadata. rewrite Hfail. do 3 eexists.
    split; [reflexivity|]. split; [reflexivity|].
    unfold stored; simpl. rewrite Hm, Hf, Hc, Htot. repeat split; auto.
    intros i Hi Hlti. apply Hch. simpl in Hrem. nia.
  - unfold putChunk. rewrite Hfail. unfold putMetadata. simpl.
    do 3 eexists. split; [reflexivity|]. split; [reflexivity|].
    unfold stored; simpl. rewrite Hm, Hf, Hc, Htot. repeat split; auto.
    intros i Hi Hlti. destruct (Z.eq_dec i (WriteSession.nextSeq D w)) as [->|Hne].
    + rewrite lookup_insert_eq. unfold chunk_at. rewrite <- Hbuf.
      rewrite take_ge; [reflexivity|]. lia.
    + rewrite lookup_insert_ne by congruence. apply Hch. nia.
Qed.

Lemma filter_other_ids (c : Criteria) (ms : list FileMetadata) :
  by_id c = Some f -> (forall m, In m ms -> id m <> f) ->
  List.filter (matches c) ms = [].
Proof.
  intros Hc Hms. induction ms as [|m ms IH]; [reflexivity|]. simpl.
  assert (matches c m = false) as ->.
  { unfold matches. rewrite Hc.
    destruct (String.eqb_spec f (id m)) as [E|_]; [|reflexivity].
    exfalso. apply (Hms m); [now left | congruence]. }
  apply IH. intros m' Hm'. apply Hms. now right.
Qed.

Lemma open_stored (B : bytes) (record : FileMetadata) (s : ChunkStore) :
  stored f C s0 B record s -> (forall m, In m (metas s0) -> id m <> f) ->
  ReadSession.open (select_id f) s =
    Ok {| ReadSession.metadata := record; ReadSession.rangeStart := 0;
            ReadSession.rangeEnd := Z.of_nat (List.length B); ReadSession.nextSeq := 0;
            ReadSession.status := ReadSession.Streaming |}.
Proof.
  intros (Hm & Hid & Hlen & Hcs & Hfail & Hch) Hfresh.
  unfold ReadSession.open, findMetadata. simpl. rewrite Hfail, Hm.
  rewrite List.filter_app, filter_other_ids by (auto; reflexivity). simpl.
  assert (matches (ReadSession.criteria_of (select_id f)) record = true) as ->.
  { unfold matches. simpl. rewrite Hid, String.eqb_refl. reflexivity. }
  simpl. rewrite Hlen.
  destruct (Z.ltb_spec (Z.of_nat (List.length B)) (Z.of_nat (List.length B))); [lia|].
  destruct (Z.ltb_spec (Z.of_nat (List.length B)) 0); [lia|]. simpl.
  unfold ReadSession.startSeq. simpl. rewrite Z.div_0_l by lia. reflexivity.
Qed.

Lemma concat_chunks_from (B : bytes) (k : Z) (m : nat) :
  0 <= k ->
  concat (chunks_from C B k m) =
    take (m * Z.to_nat C) (drop (Z.to_nat (k * C)) B).
Proof.
  revert k. induction m as [|m IH]; intros k Hk; simpl; [reflexivity|].
  rewrite IH by lia. unfold chunk_at.
  replace (Z.to_nat ((k + 1) * C)) with (Z.to_nat (k * C) + Z.to_nat C)%nat by lia.
  rewrite <- drop_drop. apply take_take_drop.
Qed.

Lemma drain_stored (B : bytes) (record : FileMetadata) (s : ChunkStore)
    (m extra : nat) (k : Z) :
  stored f C s0 B record s -> 0 <= k ->
  let r := {| ReadSession.metadata := record; ReadSession.rangeStart := 0;
              ReadSession.rangeEnd := Z.of_nat (List.length B); ReadSession.nextSeq := k;
              ReadSession.status := ReadSession.Streaming |} in
  ReadSession.endSeq r + 1 - k = Z.of_nat m ->
  exists r', ReadSession.drain (S m + extra) r s = (chunks_from C B k m, None, r')
    /\ ReadSession.status r' = ReadSession.Done.
Proof.
  intros Hs. pose proof Hs as (Hm & Hid & Hlen & Hcs & Hfail & Hch).
  revert k. induction m as [|m IH]; intros k Hk r Hend.
  - simpl. unfold ReadSession.nextChunk. simpl.
    destruct (Z.ltb_spec (ReadSession.endSeq r) k); [|subst r; lia].
    eexists. split; reflexivity.
  - assert (Hend' : ReadSession.endSeq r = - (- Z.of_nat (List.length B) / C) - 1).
    { unfold ReadSession.endSeq, ReadSession.ceil_div. simpl. now rewrite Hcs. }
    assert (Hin : k * C < Z.of_nat (List.length B)).
    { assert (k + 1 <= - (- Z.of_nat (List.length B) / C)) by lia.
      Z.div_mod_to_equations. nia. }
    change (S (S m) + extra)%nat with (S (S m + extra)).
    cbn [ReadSession.drain]. unfold ReadSession.nextChunk. cbn [ReadSession.status r].
    destruct (Z.ltb_spec (ReadSession.endSeq r) (ReadSession.nextSeq r));
      [subst r; simpl in *; lia|].
    unfold getChunk. rewrite Hfail.
    cbn [ReadSession.metadata ReadSession.nextSeq r]. rewrite Hid, (Hch k Hk Hin).
    destruct (IH (k + 1) ltac:(lia)) as (r' & Hr' & Hdone).
    { unfold ReadSession.endSeq in *. simpl in *. lia. }
    cbn [ReadSession.rangeStart ReadSession.rangeEnd r].
    rewrite Hr'. exists r'. split; [|assumption].
    f_equal. f_equal. simpl. f_equal.
    unfold ReadSession.trim. fold r. rewrite Hend'.
    unfold ReadSession.startSeq.
    cbn [ReadSession.rangeStart ReadSession.rangeEnd ReadSession.metadata r].
    rewrite Hcs, Z.div_0_l, Z.mod_0_l by lia.
    assert (Hlenk : Z.of_nat (List.length (chunk_at C B k))
                    <= Z.of_nat (List.length B) - k * C).
    { unfold chunk_at. rewrite length_take, length_drop. lia. }
    destruct (Z.eqb_spec k (- (- Z.of_nat (List.length B) / C) - 1)) as [Hlast|_];
      [rewrite take_ge by lia|]; destruct (k =? 0); now rewrite ?drop_0.
Qed.

End RoundTrip.

(** C4.  For every chunk size [C > 0] and every way of pushing the bytes
    [B = concat bs] into a WriteSession opened with chunkSize [C] on a
    store that works and holds no record of the file's identifier: the
    session opens, takes every write, and ends; a ReadSession opened on
    the identifier then covers the range from 0 to the length, reaches
    the end of the stream, and the slices it produced, concatenated, are
    [B]. *)
Theorem write_read_roundtrip (D : DigestAlg) (cfg : Config) (generated : string)
    (C : Z) (s0 : ChunkStore) (bs : list bytes) (now : Z) :
  0 < C -> cfg_chunkSize cfg = Some C -> failing s0 = false ->
  (forall m, In m (metas s0) -> id m <> default generated (cfg_id cfg)) ->
  exists w0 w1 s1 w2 s2 r slices r',
    WriteSession.open D cfg generated = Ok w0
    /\ WriteSession.write_all D w0 s0 bs = (None, w1, s1)
    /\ WriteSession.end_ D w1 s1 now = (None, w2, s2)
    /\ WriteSession.status D w2 = WriteSession.Closed
    /\ ReadSession.open (select_id (WriteSession.fileId D w0)) s2 = Ok r
    /\ ReadSession.rangeStart r = 0
    /\ ReadSession.rangeEnd r = length (ReadSession.metadata r)
    /\ ReadSession.readAll r s2 = (slices, None, r')
    /\ ReadSession.status r' = ReadSession.Done
    /\ concat slices = concat bs.
Proof.
  intros HC Hcfg Hfail Hfresh.
  set (f := default generated (cfg_id cfg)) in *.
  assert (Hopen : exists w0, WriteSession.open D cfg generated = Ok w0
                    /\ WriteSession.fileId D w0 = f /\ written D f C s0 [] w0 s0
                    /\ Z.of_nat (List.length (WriteSession.buffer D w0)) < C).
  { unfold WriteSession.open. rewrite Hcfg. simpl.
    destruct (Z.leb_spec C 0); [lia|]. eexists. split; [reflexivity|].
    split; [reflexivity|]. split; [|simpl; lia].
    unfold written; simpl. repeat split; auto; lia. }
  destruct Hopen as (w0 & Hw0 & Hf0 & Hinv0 & Hlt0).
  destruct (write_all_written D f C s0 HC bs [] w0 s0 Hinv0 Hlt0)
    as (w1 & s1 & Hw1 & Hinv1 & Hlt1).
  simpl in Hinv1.
  destruct (end_written D f C s0 HC (concat bs) w1 s1 now Hinv1 Hlt1)
    as (w2 & s2 & record & Hw2 & Hclosed & Hstored).
  pose proof (open_stored f C s0 HC (concat bs) record s2 Hstored Hfresh) as Hr.
  set (m := Z.to_nat (- (- Z.of_nat (List.length (concat bs)) / C))).
  assert (Hm : - (- Z.of_nat (List.length (concat bs)) / C) = Z.of_nat m).
  { subst m. rewrite Z2Nat.id; [reflexivity|]. Z.div_mod_to_equations. nia. }
  pose proof Hstored as (_ & _ & _ & Hcs & _).
  destruct (drain_stored f C s0 HC (concat bs) record s2 m 0%nat 0 Hstored ltac:(lia))
    as (r' & Hdrain & Hdone).
  { unfold ReadSession.endSeq, ReadSession.ceil_div. simpl. rewrite Hcs. lia. }
  exists w0, w1, s1, w2, s2. eexists. exists (chunks_from C (concat bs) 0 m), r'.
  rewrite Hf0. repeat split; try eassumption; try reflexivity.
  - simpl. now destruct Hstored as (_ & _ & -> & _).
  - unfold ReadSession.readAll, ReadSession.pulls_needed. simpl.
    replace (Z.to_nat (ReadSession.endSeq _ - 0 + 2)) with (S m + 0)%nat; [exact Hdrain|].
    unfold ReadSession.endSeq, ReadSession.ceil_div. simpl. rewrite Hcs. lia.
  - rewrite (concat_chunks_from C HC) by lia. simpl. rewrite drop_0.
    apply take_ge. Z.div_mod_to_equations. nia.
Qed.

(** The theorem at chunk size 4 and the bytes of hello world pushed in
    two writes. *)
Lemma write_read_roundtrip_witness :
  0 < 4
  /\ exists w0 w1 s1 w2 s2 r slices r',
       WriteSession.open byte_sum (config_of "file1" 4) "generated" = Ok w0
       /\ WriteSession.write_all byte_sum w0 empty_store
            [list_byte_of_string "hello "; list_byte_of_string "world"]
          = (None, w1, s1)
       /\ WriteSession.end_ byte_sum w1 s1 0 = (None, w2, s2)
       /\ WriteSession.status byte_sum w2 = WriteSession.Closed
       /\ ReadSession.open (select_id (WriteSession.fileId byte_sum w0)) s2 = Ok r
       /\ ReadSession.rangeStart r = 0
       /\ ReadSession.rangeEnd r = length (ReadSession.metadata r)
       /\ ReadSession.readAll r s2 = (slices, None, r')
       /\ ReadSession.status r' = ReadSession.Done
       /\ concat slices
          = concat [list_byte_of_string "hello "; list_byte_of_string "world"].
Proof.
  split; [lia|].
  apply (write_read_roundtrip byte_sum (config_of "file1" 4) "generated" 4
           empty_store [list_byte_of_string "hello "; list_byte_of_string "world"] 0).
  - lia.
  - reflexivity.
  - reflexivity.
  - intros m [].
Defined.

(** The scenarios of the specification, section 8. *)

Example hello_world_chunks :
  map (fun i => chunks hello_store !! ("file1", i)) [0; 1; 2; 3]
  = [Some (list_byte_of_string "hell"); Some (list_byte_of_string "o wo");
     Some (list_byte_of_string "rld"); None]
  /\ map length (metas hello_store) = [11].
Proof. vm_compute. split; reflexivity. Qed.

Example hello_world_range :
  download (range_of "file1" 2 9) hello_store
  = Ok [list_byte_of_string "ll"; list_byte_of_string "o wo"; list_byte_of_string "r"].
Proof. vm_compute. reflexivity. Qed.

Example empty_file :
  let s := snd (upload byte_sum (config_of "file2" 4) "generated" empty_store [] 0) in
  map length (metas s) = [0] /\ chunks s = ∅ /\ download (select_id "file2") s = Ok [].
Proof. vm_compute. repeat split; reflexivity. Qed.

Example exact_multiple :
  let s := snd (upload byte_sum (config_of "file3" 4) "generated" empty_store
                  [list_byte_of_string "12345678"] 0) in
  map (fun i => chunks s !! ("file3", i)) [0; 1; 2]
  = [Some (list_byte_of_string "1234"); Some (list_byte_of_string "5678"); None].
Proof. vm_compute. reflexivity. Qed.

Example invalid_range :
  download (range_of "file1" 2 12) hello_store = Err InvalidRange
  /\ download (range_of "file1" 5 4) hello_store = Err InvalidRange
  /\ download (select_id "nofile") hello_store = Err NotFound.
Proof. vm_compute. repeat split; reflexivity. Qed.

End SessionFacts.

(** * Further properties of the handle *)

(** ** The constructor and the default collection *)

(** X1.  The constructor returns a handle exactly when it is given a
    database and a driver, the driver as its argument or as the static
    [Grid.mongo]; a missing driver is reported before a missing
    database; the static [Grid.mongo] is not looked at when the argument
    gives a driver; and the handle returned holds the database, the
    driver, no cached collection, and as root the driver's default, or
    fs for a driver without GridStore. *)
Theorem Grid_new_outcome (gm : option Mongo) (d : option Db) (m : option Mongo) :
  ((exists g, Grid_new gm d m = Return g) <-> d <> None /\ (m <> None \/ gm <> None))
  /\ (m = None -> gm = None ->
      Grid_new gm d m = Throw "missing mongo argument
new Grid(db, mongo)")
  /\ ((m <> None \/ gm <> None) -> d = None ->
      Grid_new gm d m = Throw "missing db argument
new Grid(db, mongo)")
  /\ (forall gm', m <> None -> Grid_new gm' d m = Grid_new gm d m)
  /\ (forall dbh mg, d = Some dbh -> (m = Some mg \/ (m = None /\ gm = Some mg)) ->
      Grid_new gm d m
      = Return {| db := dbh; mongo := mg;
                  curCol := match GridStore mg with
                            | Some gs => DEFAULT_ROOT_COLLECTION gs
                            | None => "fs"
                            end;
                  _col := None |}).
Proof.
  unfold Grid_new. split; [|split; [|split; [|split]]].
  - destruct m as [mg|], gm as [mg'|], d as [dbh|]; simpl; split;
      try (intros [g H]; discriminate); try (intros [H1 H2]; congruence);
      try (intros [H1 [H2|H2]]; congruence); intros _; eauto;
      split; (discriminate || (left; discriminate) || (right; discriminate)).
  - intros -> ->. reflexivity.
  - intros H ->. destruct m as [mg|]; [reflexivity|].
    destruct gm as [mg|]; [reflexivity|]. destruct H; congruence.
  - intros gm' H. destruct m as [mg|]; [reflexivity | congruence].
  - intros dbh mg -> [->|[-> ->]]; reflexivity.
Qed.

(** X2.  On a handle the constructor returned, after any sequence of
    operations: the database and the driver are still the ones given to
    the constructor, and the cached collection, when there is one, is
    the collection [curCol].files. *)
Theorem handle_invariant (gm : option Mongo) (d : option Db) (m : option Mongo)
    (g : Grid) (ops : list op) :
  Grid_new gm d m = Return g ->
  db (run g ops) = db g
  /\ mongo (run g ops) = mongo g
  /\ (forall c, _col (run g ops) = Some c -> c = Coll (curCol (run g ops) +:+ ".files"))
  /\ _col g = None.
Proof.
  intros Hnew. destruct (run_db_mongo ops g) as [Hdb Hm].
  pose proof (run_consistent ops g (Grid_new_consistent _ _ _ _ Hnew)) as [Hc _].
  repeat split; auto.
  unfold Grid_new in Hnew.
  destruct (match m with Some _ => m | None => gm end); [|discriminate].
  destruct d; [|discriminate]. now injection Hnew as <-.
Qed.

(** The theorem at the sample handle and a run of operations. *)
Lemma handle_invariant_witness :
  Grid_new None (Some (mem_db sample_colls)) (Some native) = Return sample_grid
  /\ db (run sample_grid sample_ops) = db sample_grid
  /\ mongo (run sample_grid sample_ops) = mongo sample_grid
  /\ (forall c, _col (run sample_grid sample_ops) = Some c ->
        c = Coll (curCol (run sample_grid sample_ops) +:+ ".files"))
  /\ _col sample_grid = None.
Proof.
  split; [reflexivity|].
  exact (handle_invariant None (Some (mem_db sample_colls)) (Some native)
           sample_grid sample_ops eq_refl).
Defined.

Lemma last_named_acc (ops : list op) (acc : option string) :
  last_named ops acc
    = match last_named ops None with Some n => Some n | None => acc end.
Proof.
  revert acc. induction ops as [|o ops IH]; intros acc; simpl; [reflexivity|].
  destruct o as [|[name|]| | | | | |]; try apply IH.
  destruct (JS.truthy_str name); [|apply IH].
  rewrite (IH (Some name)). destruct (last_named ops None); reflexivity.
Qed.

Lemma run_curCol (ops : list op) (g : Grid) :
  consistent g -> curCol (run g ops) = default (curCol g) (last_named ops None).
Proof.
  revert g. induction ops as [|o ops IH]; intros g Hg; simpl; [reflexivity|].
  rewrite (IH (step g o) (step_consistent g o Hg)).
  destruct (renames o) eqn:Ho.
  - destruct o as [|[name|]| | | | | |]; try discriminate. simpl in Ho.
    rewrite Ho. apply truthy_str_true in Ho. simpl.
    rewrite collection_named by assumption. simpl.
    rewrite (last_named_acc ops (Some name)).
    destruct (last_named ops None); reflexivity.
  - destruct (step_frame g o Hg Ho) as [_ ->].
    destruct o as [|[name|]| | | | | |]; try reflexivity.
    simpl in Ho. now rewrite Ho.
Qed.

(** X3.  On a handle the constructor returned, after any sequence of
    operations, the root is the name given by the last
    [collection(name)] with a name that is not empty, or the root of the
    constructor when there was none, and the getter [files] gives the
    collection of that root. *)
Theorem last_collection_wins (gm : option Mongo) (d : option Db) (m : option Mongo)
    (g : Grid) (ops : list op) :
  Grid_new gm d m = Return g ->
  curCol (run g ops) = default (curCol g) (last_named ops None)
  /\ fst (files (run g ops))
     = Return (Coll (default (curCol g) (last_named ops None) +:+ ".files")).
Proof.
  intros Hnew. pose proof (Grid_new_consistent _ _ _ _ Hnew) as Hg.
  pose proof (run_curCol ops g Hg) as Hcur. split; [assumption|].
  destruct (files_default _ (run_consistent ops g Hg)) as [-> _].
  unfold default_of. now rewrite Hcur.
Qed.

(** The theorem at the sample handle: photos, then other. *)
Lemma last_collection_wins_witness :
  Grid_new None (Some (mem_db sample_colls)) (Some native) = Return sample_grid
  /\ curCol (run sample_grid sample_ops) = "other"
  /\ fst (files (run sample_grid sample_ops)) = Return (Coll "other.files").
Proof.
  split; [reflexivity|].
  exact (last_collection_wins None (Some (mem_db sample_colls)) (Some native)
           sample_grid sample_ops eq_refl).
Defined.

(** X4.  [collection(name)] is idempotent: a second call with the same
    argument gives the same collection and leaves the handle as the
    first call left it; and the getter [files] then gives the collection
    the call returned, without changing the handle. *)
Theorem collection_idempotent (g : Grid) (name : option string) :
  collection name (snd (collection name g)) = collection name g
  /\ (forall c, fst (collection name g) = Return c ->
        files (snd (collection name g)) = (Return c, snd (collection name g))).
Proof.
  unfold files, collection.
  destruct (JS.truthy_prop name) eqn:Hn; simpl.
  - split; [reflexivity | now intros c [= <-]].
  - destruct (JS.truthy_str (curCol g)) eqn:Hcur; simpl.
    + rewrite Hcur. split; [reflexivity | now intros c [= <-]].
    + destruct (GridStore (mongo g)) as [gs|] eqn:Hgs; simpl.
      * rewrite Hgs. split; [|now intros c [= <-]].
        destruct (JS.truthy_str (DEFAULT_ROOT_COLLECTION gs)); reflexivity.
      * rewrite Hcur, Hgs. split; [reflexivity | discriminate].
Qed.

(** ** The queries *)

Lemma reachable_consistent (g : Grid) : reachable g -> consistent g.
Proof.
  intros (gm & d & m & g0 & ops & Hnew & ->).
  apply run_consistent, (Grid_new_consistent _ _ _ _ Hnew).
Qed.



Lemma pick_collection_target (g : Grid) (options : Options) :
  consistent g ->
  (forall name, Collection_new (mongo g) name = Return (Some (Coll name))) ->
  fst (pick_collection g options)
    = Return (Some (Coll (effective_root g options +:+ ".files"))).
Proof.
  intros Hg Hdrv. destruct (files_default g Hg) as [Hf _].
  unfold pick_collection, effective_root.
  destruct (root options) as [r|].
  - destruct (JS.truthy_str r) eqn:Hr; simpl.
    + destruct (String.eqb_spec r (curCol g)) as [->|Hne]; simpl.
      * destruct (files g) as [[c|e] g']; simpl in *; [|discriminate].
        now injection Hf as ->.
      * now rewrite Hdrv.
    + destruct (files g) as [[c|e] g']; simpl in *; [|discriminate].
      now injection Hf as ->.
  - destruct (files g) as [[c|e] g']; simpl in *; [|discriminate].
    now injection Hf as ->.
Qed.

Lemma findOne_callback (g : Grid) (options : Options) (c : Collection) :
  fst (pick_collection g options) = Return (Some c) ->
  fst (findOne g options true)
    = Return (reply_one (db_find (db g) c (build_query g options))).
Proof.
  intros Hp. unfold findOne. simpl.
  pose proof (pick_collection_db g options) as Hdb.
  destruct (pick_collection g options) as [[[c'|]|e] g']; simpl in *; try discriminate.
  injection Hp as ->. rewrite Hdb.
  destruct (db_find (db g) c (build_query g options)); reflexivity.
Qed.

Lemma find_callback (g : Grid) (options : Options) (c : Collection) :
  fst (pick_collection g options) = Return (Some c) ->
  fst (find g options true)
    = Return (reply_all (db_find (db g) c (build_query g options))).
Proof.
  intros Hp. unfold find. simpl.
  pose proof (pick_collection_db g options) as Hdb.
  destruct (pick_collection g options) as [[[c'|]|e] g']; simpl in *; try discriminate.
  injection Hp as ->. rewrite Hdb.
  destruct (db_find (db g) c (build_query g options)); reflexivity.
Qed.

(** X6.  On a reachable handle, with a driver whose [Collection] gives
    the collection it is asked for, [findOne] and [find] send the query
    to the collection root.files, where root is the one of the options
    when it is not empty and the one of the handle otherwise; a driver
    error reaches the callback as it is, a missing cursor as Collection
    not found, and a cursor as its first document ([findOne]) or all its
    documents ([find]). *)
Theorem query_target (g : Grid) (options : Options) :
  reachable g ->
  (forall name, Collection_new (mongo g) name = Return (Some (Coll name))) ->
  fst (findOne g options true)
    = Return (reply_one (db_find (db g) (Coll (effective_root g options +:+ ".files"))
                           (build_query g options)))
  /\ fst (find g options true)
    = Return (reply_all (db_find (db g) (Coll (effective_root g options +:+ ".files"))
                           (build_query g options))).
Proof.
  intros Hg Hdrv. apply reachable_consistent in Hg.
  pose proof (pick_collection_target g options Hg Hdrv) as Hp.
  split; [now apply findOne_callback | now apply find_callback].
Qed.

(** The theorem at the sample handle and a selection in photos. *)
Lemma query_target_witness :
  reachable sample_grid
  /\ (forall name, Collection_new (mongo sample_grid) name = Return (Some (Coll name)))
  /\ fst (findOne sample_grid in_photos true)
     = Return (reply_one (db_find (db sample_grid) (Coll "photos.files")
                            (build_query sample_grid in_photos))).
Proof.
  assert (H : reachable sample_grid).
  { exists None, (Some (mem_db sample_colls)), (Some native), sample_grid, [].
    split; reflexivity. }
  split; [exact H|]. split; [reflexivity|].
  exact (proj1 (query_target sample_grid in_photos H (fun name => eq_refl))).
Defined.

(** X7.  A root in the options that is not empty and differs from the
    root of the handle is used for that call only: the collection is
    what [mongo.Collection] gives for root.files (an error it throws is
    thrown by the call), and [findOne] and [find] leave the handle as it
    was, cache included. *)
Theorem explicit_root_frame (g : Grid) (options : Options) (r : string)
    (callback : bool) :
  root options = Some r -> r <> "" -> r <> curCol g ->
  snd (findOne g options callback) = g
  /\ snd (find g options callback) = g
  /\ fst (pick_collection g options) = Collection_new (mongo g) (r +:+ ".files").
Proof.
  intros Hr Hne Hcur.
  assert (Hp : pick_collection g options
               = (Collection_new (mongo g) (r +:+ ".files"), g)).
  { unfold pick_collection. rewrite Hr.
    apply truthy_str_true in Hne. rewrite Hne.
    apply String.eqb_neq in Hcur. now rewrite Hcur. }
  unfold findOne, find. rewrite Hp. destruct callback; simpl; auto.
  destruct (Collection_new (mongo g) (r +:+ ".files")) as [[c|]|msg]; simpl; auto.
  destruct (db_find (db g) c (build_query g options)); auto.
Qed.

(** The theorem at the sample handle and a selection in photos. *)
Lemma explicit_root_frame_witness :
  root in_photos = Some "photos" /\ "photos" <> "" /\ "photos" <> curCol sample_grid
  /\ snd (findOne sample_grid in_photos true) = sample_grid.
Proof.
  assert (H1 : "photos" <> "") by discriminate.
  assert (H2 : "photos" <> curCol sample_grid) by discriminate.
  split; [reflexivity|]. split; [exact H1|]. split; [exact H2|].
  exact (proj1 (explicit_root_frame sample_grid in_photos "photos" true eq_refl H1 H2)).
Defined.

(** X8.  With a callback, [findOne] hands over the first of the
    documents [find] hands over for the same options, the same error
    when [find] hands over an error, and both leave the handle in the
    same state. *)
Theorem findOne_head_of_find (g : Grid) (options : Options) :
  fst (findOne g options true) = lift_first (fst (find g options true))
  /\ snd (findOne g options true) = snd (find g options true).
Proof.
  unfold findOne, find. simpl.
  destruct (pick_collection g options) as [[[c|]|e] g']; simpl; auto.
  destruct (db_find (db g') c (build_query g options)); simpl; auto.
Qed.

(** ** Identifiers *)

Lemma or_else_truthy (a v : value) : truthy v = true -> truthy (or_else a v) = true.
Proof. intros H. unfold or_else. destruct (truthy a) eqn:E; assumption. Qed.


(** X11.  For a truthy [_id], the query of [findOne] and [find] and the
    key of [remove] and [exist] hold the same resolved identifier. *)
Theorem id_resolved_alike (g : Grid) (options : Options) (gs : GridStoreT) (v : value) :
  GridStore (mongo g) = Some gs ->
  fields options !! "_id" = Some v -> truthy v = true ->
  exists key,
    build_query g options !! "_id" = Some key
    /\ remove g options = Return (Unlink (Some key) options)
    /\ exist g options = Return (Exist (Some key) (root options)).
Proof.
  intros Hgs Hid Hv. exists (or_else (tryParseObjectId g v) v).
  unfold build_query, remove, exist. rewrite Hid, Hv, Hgs. simpl.
  rewrite (or_else_truthy _ v Hv). simpl.
  rewrite lookup_insert_eq. auto.
Qed.

(** The theorem at the sample handle and an [_id] of 24 hexadecimal
    digits. *)
Lemma id_resolved_alike_witness :
  GridStore (mongo sample_grid) = Some {| DEFAULT_ROOT_COLLECTION := "fs" |}
  /\ fields hex_id !! "_id" = Some (VStr "507f1f77bcf86cd799439011")
  /\ truthy (VStr "507f1f77bcf86cd799439011") = true
  /\ exists key,
       build_query sample_grid hex_id !! "_id" = Some key
       /\ remove sample_grid hex_id = Return (Unlink (Some key) hex_id)
       /\ exist sample_grid hex_id = Return (Exist (Some key) (root hex_id)).
Proof.
  split; [reflexivity|]. split; [reflexivity|]. split; [reflexivity|].
  exact (id_resolved_alike sample_grid hex_id {| DEFAULT_ROOT_COLLECTION := "fs" |}
           (VStr "507f1f77bcf86cd799439011") eq_refl eq_refl eq_refl).
Defined.

(** X12.  [remove] and [exist] check nothing in the options: they throw
    exactly when the driver has no GridStore, and otherwise always hand
    a call to the driver, [remove] with the whole options and [exist]
    with their root, under a key that is undefined exactly when [_id] is
    missing or falsy and there is no filename. *)
Theorem remove_exist_unchecked (g : Grid) (options : Options) :
  ((exists msg, remove g options = Throw msg) <-> GridStore (mongo g) = None)
  /\ ((exists msg, exist g options = Throw msg) <-> GridStore (mongo g) = None)
  /\ (forall gs, GridStore (mongo g) = Some gs ->
        exists key, remove g options = Return (Unlink key options)
          /\ exist g options = Return (Exist key (root options))
          /\ (key = None <-> truthy_opt (fields options !! "_id") = false
                             /\ fields options !! "filename" = None)).
Proof.
  unfold remove, exist.
  destruct (GridStore (mongo g)) as [gs|] eqn:Hgs.
  - split; [|split].
    + split; [intros [msg H]; discriminate | discriminate].
    + split; [intros [msg H]; discriminate | discriminate].
    + intros gs' _. eexists. split; [reflexivity|]. split; [reflexivity|].
      destruct (fields options !! "_id") as [v|]; simpl.
      * destruct (truthy v) eqn:Hv; simpl.
        -- rewrite (or_else_truthy _ v Hv). simpl.
           split; [discriminate | intros [H _]; discriminate].
        -- tauto.
      * tauto.
  - split; [|split].
    + split; eauto.
    + split; eauto.
    + discriminate.
Qed.

(** X13.  A driver without GridStore passes the constructor: as long as
    no root is given with [collection(name)], the default collection is
    fs.files, [findOne] and [find] with a callback and options that name
    no root query fs.files, and [remove] and [exist] throw on reading
    [GridStore.unlink] and [GridStore.exist]. *)
Theorem without_GridStore (gm : option Mongo) (d : option Db) (m : option Mongo)
    (g : Grid) (ops : list op) (options : Options) :
  Grid_new gm d m = Return g -> GridStore (mongo g) = None ->
  forallb (fun o => negb (renames o)) ops = true ->
  fst (files (run g ops)) = Return (Coll "fs.files")
  /\ (root options = None ->
      fst (findOne (run g ops) options true)
      = Return (reply_one (db_find (db g) (Coll "fs.files")
                             (build_query (run g ops) options)))
      /\ fst (find (run g ops) options true)
         = Return (reply_all (db_find (db g) (Coll "fs.files")
                                (build_query (run g ops) options))))
  /\ (exists msg, remove (run g ops) options = Throw msg)
  /\ (exists msg, exist (run g ops) options = Throw msg).
Proof.
  intros Hnew Hgs Hops. pose proof (Grid_new_consistent _ _ _ _ Hnew) as Hg.
  destruct (run_frame ops g Hg Hops) as [Hg' Hcur].
  destruct (run_db_mongo ops g) as [Hdb Hm].
  assert (Hfs : curCol g = "fs").
  { unfold Grid_new in Hnew.
    destruct (match m with Some _ => m | None => gm end) as [mg|]; [|discriminate].
    destruct d as [dbh|]; [|discriminate]. injection Hnew as <-. simpl in *.
    now rewrite Hgs. }
  destruct (files_default _ Hg') as [Hf _]. unfold default_of in Hf.
  rewrite Hcur, Hfs in Hf. change ("fs" +:+ ".files") with "fs.files" in Hf.
  split; [assumption|]. split.
  - intros Hroot.
    assert (Hp : fst (pick_collection (run g ops) options)
                 = Return (Some (Coll "fs.files"))).
    { unfold pick_collection. rewrite Hroot.
      destruct (files (run g ops)) as [[c|e] g']; simpl in *; congruence. }
    rewrite <- Hdb.
    split; [now apply findOne_callback | now apply find_callback].
  - unfold remove, exist. rewrite Hm, Hgs. eauto.
Qed.

(** The theorem at the handle on the driver without GridStore. *)
Lemma without_GridStore_witness :
  Grid_new None (Some (mem_db sample_colls)) (Some bare) = Return bare_grid
  /\ GridStore (mongo bare_grid) = None
  /\ fst (files (run bare_grid quiet_ops)) = Return (Coll "fs.files")
  /\ exists msg, remove (run bare_grid quiet_ops) (by_filename "a.txt") = Throw msg.
Proof.
  split; [reflexivity|]. split; [reflexivity|].
  pose proof (without_GridStore None (Some (mem_db sample_colls)) (Some bare)
                bare_grid quiet_ops (by_filename "a.txt") eq_refl eq_refl eq_refl)
    as (H1 & _ & H2 & _).
  split; [exact H1 | exact H2].
Defined.

(** ** Cache support *)

Lemma checkForCache_two_headers (rq rq' : Request) (sum : string) :
  headers rq !! "cache-control" = headers rq' !! "cache-control" ->
  headers rq !! "if-none-match" = headers rq' !! "if-none-match" ->
  _checkForCacheFromRequest rq sum = _checkForCacheFromRequest rq' sum.
Proof. intros H1 H2. unfold _checkForCacheFromRequest. now rewrite H1, H2. Qed.

(** X14.  [setCacheControl] reads the request through its cache-control
    and if-none-match headers only: two requests that agree on both get
    the same status and the same headers, whatever else they carry
    (if-modified-since is never looked at). *)
Theorem only_two_headers (metadata : option FileMetadata) (rq rq' : Request)
    (response : option Response) :
  headers rq !! "cache-control" = headers rq' !! "cache-control" ->
  headers rq !! "if-none-match" = headers rq' !! "if-none-match" ->
  setCacheControl metadata (Some rq) response = setCacheControl metadata (Some rq') response.
Proof.
  intros H1 H2. rewrite !setCacheControl_eq.
  destruct metadata as [m|]; [|reflexivity].
  destruct response as [rs|]; [|reflexivity].
  destruct (md5 m) as [sum|], (uploadDate m) as [date|], (contentType m) as [ctype|];
    try reflexivity.
  now rewrite (checkForCache_two_headers rq rq' sum H1 H2).
Qed.

(** The theorem at two requests, one of them with if-modified-since. *)
Lemma only_two_headers_witness :
  setCacheControl (Some sample_metadata)
    (Some (request_of [("cache-control", "max-age=0")])) (Some [])
  = setCacheControl (Some sample_metadata)
      (Some (request_of [("cache-control", "max-age=0");
                         ("if-modified-since", "Mon, 02 Nov 2026 17:02:00 GMT")]))
      (Some []).
Proof.
  exact (only_two_headers (Some sample_metadata)
           (request_of [("cache-control", "max-age=0")])
           (request_of [("cache-control", "max-age=0");
                        ("if-modified-since", "Mon, 02 Nov 2026 17:02:00 GMT")])
           (Some []) eq_refl eq_refl).
Defined.

Lemma toUTCString_seconds (t t' : Z) :
  t / 1000 = t' / 1000 ->
  JSDate.toUTCString (JSDate.TimeValue t) = JSDate.toUTCString (JSDate.TimeValue t').
Proof.
  intros H.
  assert (Hd : JSDate.Day t = JSDate.Day t').
  { unfold JSDate.Day, JSDate.msPerDay.
    change 86400000 with (1000 * 86400).
    rewrite <- !Z.div_div by lia. now rewrite H. }
  assert (Hh : JSDate.HourFromTime t = JSDate.HourFromTime t').
  { unfold JSDate.HourFromTime, JSDate.msPerHour.
    change 3600000 with (1000 * 3600).
    rewrite <- !Z.div_div by lia. now rewrite H. }
  assert (Hm : JSDate.MinFromTime t = JSDate.MinFromTime t').
  { unfold JSDate.MinFromTime, JSDate.msPerMinute.
    change 60000 with (1000 * 60).
    rewrite <- !Z.div_div by lia. now rewrite H. }
  assert (Hs : JSDate.SecFromTime t = JSDate.SecFromTime t').
  { unfold JSDate.SecFromTime, JSDate.msPerSecond. now rewrite H. }
  assert (Hy : JSDate.YearFromTime t = JSDate.YearFromTime t').
  { unfold JSDate.YearFromTime. now rewrite Hd. }
  assert (Hw : JSDate.DayWithinYear t = JSDate.DayWithinYear t').
  { unfold JSDate.DayWithinYear. now rewrite Hd, Hy. }
  assert (Hl : JSDate.InLeapYear t = JSDate.InLeapYear t').
  { unfold JSDate.InLeapYear. now rewrite Hy. }
  assert (Hmo : JSDate.MonthFromTime t = JSDate.MonthFromTime t').
  { unfold JSDate.MonthFromTime. now rewrite Hw, Hl. }
  assert (Hda : JSDate.DateFromTime t = JSDate.DateFromTime t').
  { unfold JSDate.DateFromTime. now rewrite Hw, Hl, Hmo. }
  assert (Hwd : JSDate.WeekDay t = JSDate.WeekDay t').
  { unfold JSDate.WeekDay. now rewrite Hd. }
  unfold JSDate.toUTCString, JSDate.TimeString.
  now rewrite Hy, Hmo, Hda, Hwd, Hh, Hm, Hs.
Qed.

(** X15.  The milliseconds of the upload date do not show: two metadata
    records that differ only by upload dates within the same second get
    the same status and the same headers, Last-Modified included. *)
Theorem upload_date_seconds (m m' : FileMetadata) (request : option Request)
    (response : option Response) (t t' : Z) :
  md5 m = md5 m' -> contentType m = contentType m' ->
  uploadDate m = Some (JSDate.TimeValue t) ->
  uploadDate m' = Some (JSDate.TimeValue t') ->
  t / 1000 = t' / 1000 ->
  setCacheControl (Some m) request response = setCacheControl (Some m') request response.
Proof.
  intros Hs Hc Hd Hd' Ht. rewrite !setCacheControl_eq.
  rewrite <- Hs, <- Hc, Hd, Hd'. unfold JSDate.new_Date.
  now rewrite (toUTCString_seconds t t' Ht).
Qed.

(** The theorem at the sample metadata and the one uploaded 999
    milliseconds later. *)
Lemma upload_date_seconds_witness :
  1793638920000 / 1000 = 1793638920999 / 1000
  /\ setCacheControl (Some sample_metadata) (Some (request_of [])) (Some [])
     = setCacheControl (Some later_metadata) (Some (request_of [])) (Some []).
Proof.
  split; [reflexivity|].
  exact (upload_date_seconds sample_metadata later_metadata (Some (request_of []))
           (Some []) 1793638920000 1793638920999 eq_refl eq_refl eq_refl eq_refl eq_refl).
Defined.

Lemma includes_suffix (a b sub : string) :
  JS.includes (a +:+ b) sub = false -> JS.includes b sub = false.
Proof.
  induction a as [|c a IH]; intros H; [exact H|].
  rewrite append_cons in H. cbn [JS.includes] in H.
  apply orb_false_iff in H as [_ H]. auto.
Qed.

Lemma includes_prefix_false (s sub : string) :
  JS.includes s sub = false -> String.prefix sub s = false.
Proof. destruct s; cbn [JS.includes]; intros H; apply orb_false_iff in H; tauto. Qed.

Lemma prefix_sep_through (c : ascii) (x rest : string) :
  String.prefix ", " (String c x) = false ->
  String.prefix ", " (String c (x +:+ ", " +:+ rest)) = false.
Proof.
  cbn [String.prefix]. destruct (Ascii.ascii_dec "," c) as [<-|]; [|reflexivity].
  destruct x as [|c2 x].
  - intros _. rewrite append_nil, append_cons. cbn [String.prefix].
    destruct (Ascii.ascii_dec " " ","); [discriminate | reflexivity].
  - rewrite append_cons. cbn [String.prefix].
    destruct (Ascii.ascii_dec " " c2); [intros H; destruct x; discriminate H | auto].
Qed.

Lemma prefix_sep_here (rest : string) :
  String.prefix ", " (String "," (String " " rest)) = true.
Proof. destruct rest; reflexivity. Qed.

Lemma split_go_piece (x cur rest : string) :
  JS.includes (cur +:+ x) ", " = false ->
  JS.split_go ", " 0 cur (x +:+ ", " +:+ rest)
    = (cur +:+ x) :: JS.split_go ", " 0 "" rest.
Proof.
  revert cur. induction x as [|c x IH]; intros cur H.
  - rewrite append_nil_r, append_nil, !append_cons, append_nil.
    cbn [JS.split_go]. rewrite prefix_sep_here. reflexivity.
  - rewrite append_cons. cbn [JS.split_go].
    rewrite prefix_sep_through
      by (apply includes_prefix_false; now apply includes_suffix in H).
    rewrite IH.
    + now rewrite app_assoc_str, append_cons, append_nil.
    + now rewrite app_assoc_str, append_cons, append_nil.
Qed.

Lemma split_go_last (x cur : string) :
  JS.includes (cur +:+ x) ", " = false ->
  JS.split_go ", " 0 cur x = [cur +:+ x].
Proof.
  revert cur. induction x as [|c x IH]; intros cur H.
  - now rewrite append_nil_r.
  - cbn [JS.split_go].
    rewrite (includes_prefix_false (String c x))
      by (now apply includes_suffix in H).
    rewrite IH; now rewrite app_assoc_str, append_cons, append_nil.
Qed.

(** Splitting what [join] made of pieces that hold no separator gives
    the pieces back. *)
Lemma split_join (ds : list string) :
  ds <> [] -> Forall (fun d => JS.includes d ", " = false) ds ->
  JS.split ", " (JS.join ", " ds) = ds.
Proof.
  intros Hne Hds. unfold JS.split.
  induction Hds as [|d ds Hd Hds IH]; [congruence|].
  destruct ds as [|d' ds].
  - cbn [JS.join]. rewrite split_go_last by (now rewrite append_nil). reflexivity.
  - rewrite join_cons.
    rewrite split_go_piece by (now rewrite append_nil).
    rewrite append_nil. f_equal. apply IH. discriminate.
Qed.

(** X16.  For a cache-control header that lists directives separated by
    a comma and a space (none of them holding that separator, the header
    not empty), on metadata that passes the guard: the status is 200
    exactly when one of the directives is no-cache or private, or the
    if-none-match header is there, not empty, and differs from the
    checksum. *)
Theorem directives_disposition (m : FileMetadata) (rq : Request) (rs : Response)
    (sum : string) (date : JSDate.Date) (ctype : string) (ds : list string) :
  cacheable m sum date ctype ->
  ds <> [] -> ds <> [""] ->
  Forall (fun d => JS.includes d ", " = false) ds ->
  headers rq !! "cache-control" = Some (JS.join ", " ds) ->
  fst (setCacheControl (Some m) (Some rq) (Some rs)) = Return 200
  <-> (In "no-cache" ds \/ In "private" ds
       \/ exists etag, headers rq !! "if-none-match" = Some etag
                       /\ etag <> "" /\ etag <> sum).
Proof.
  intros Hm Hne Hne' Hds Hcc.
  rewrite (setCacheControl_cacheable m rq rs sum date ctype Hm).
  assert (Hs : fst (if _checkForCacheFromRequest rq sum
                    then (Return 200, Some (rs ++ cache_headers sum date
                                               ++ [("Content-Type", ctype)])%list)
                    else (Return 304, Some (rs ++ cache_headers sum date)%list))
               = Return 200 <-> _checkForCacheFromRequest rq sum = true).
  { destruct (_checkForCacheFromRequest rq sum); simpl; split; congruence. }
  rewrite Hs, checkForCache_serve. unfold serve_condition. rewrite Hcc.
  assert (Hnonempty : JS.join ", " ds <> "").
  { destruct ds as [|d [|d' ds]]; [congruence| |].
    - cbn [JS.join]. congruence.
    - rewrite join_cons. destruct d; [rewrite append_nil|rewrite append_cons];
        discriminate. }
  split.
  - intros [[H|H]|[(v & [= <-] & H)|H]]; try congruence.
    + rewrite split_join in H by assumption. tauto.
    + tauto.
  - intros [H|[H|H]].
    + right; left. exists (JS.join ", " ds). rewrite split_join by assumption. tauto.
    + right; left. exists (JS.join ", " ds). rewrite split_join by assumption. tauto.
    + tauto.
Qed.

(** The theorem at the header max-age=0, no-cache. *)
Lemma directives_disposition_witness :
  cacheable sample_metadata "abc123" sample_date "text/plain"
  /\ headers (request_of [("cache-control", "max-age=0, no-cache")]) !! "cache-control"
     = Some (JS.join ", " ["max-age=0"; "no-cache"])
  /\ fst (setCacheControl (Some sample_metadata)
            (Some (request_of [("cache-control", "max-age=0, no-cache")])) (Some []))
     = Return 200.
Proof.
  assert (H : cacheable sample_metadata "abc123" sample_date "text/plain")
    by (unfold cacheable; repeat split; discriminate).
  split; [exact H|]. split; [reflexivity|].
  apply (directives_disposition sample_metadata
           (request_of [("cache-control", "max-age=0, no-cache")]) [] "abc123"
           sample_date "text/plain" ["max-age=0"; "no-cache"] H).
  - discriminate.
  - discriminate.
  - repeat constructor.
  - reflexivity.
  - left. right. left. reflexivity.
Defined.
